(** * EIC_gen.py: extracted-ion-chromatogram generation, embedded in Rocq

    A shallow embedding of [python_scripts/EICgen/EIC_gen.py] (class [EICgen]
    and the dataclass [Feature]).

    - Python floats are IEEE-754 binary64 numbers: [PrimFloat.float], with the
      kernel's [+], [-] and [<?].
    - A pandas [DataFrame] is a list of column labels and a list of rows, each
      row a finite map from label to cell.  Frames are objects on a heap, so
      that in-place updates ([df['Feature'] = ...], [df.loc[...] = ...],
      [fillna(inplace=True)]) and the copy made by boolean indexing are both
      visible.  The frame operations follow pandas without copy-on-write, the
      pandas of the Python 3.8 that the script asks for.
    - Exceptions are values of [exn]; a computation that may raise returns a
      [result].
    - The asyncio event loop of [run] is a loop over the pending tasks that is
      driven by a schedule: [asyncio.wait] puts the coroutines into a [set],
      so the order in which the tasks start is not fixed by the program.
    - What the script takes from outside is a parameter: [float] on strings
      ([py_float]) and the converter [parse_mzXML]; the directory listing, the
      converted tables and the lines of the target file are inputs. *)

From Stdlib Require Import Floats ZArith Ascii String List.
From stdpp Require Import gmap strings list.

Local Open Scope string_scope.
Local Open Scope list_scope.

(** ** Exceptions and results *)

Inductive exn : Set :=
| ValueError
| IndexError
| KeyError
| AttributeError
| TypeError
| FileNotFoundError
| RuntimeError
| ConverterError.

Inductive result (A : Type) : Type :=
| Return (a : A)
| Raise (e : exn).

Arguments Return {A} a.
Arguments Raise {A} e.

Definition rbind {A B} (m : result A) (k : A -> result B) : result B :=
  match m with
  | Return a => k a
  | Raise e => Raise e
  end.

Declare Scope py_scope.
Delimit Scope py_scope with py.
Notation "x <~ m ;; k" := (rbind m (fun x => k))
  (at level 100, m at next level, right associativity) : py_scope.
Local Open Scope py_scope.

(** [[f(x) for x in l]] where [f] may raise: the first exception wins. *)
Fixpoint rmap {A B} (f : A -> result B) (l : list A) : result (list B) :=
  match l with
  | [] => Return []
  | x :: l' =>
      y <~ f x ;;
      ys <~ rmap f l' ;;
      Return (y :: ys)
  end.

(** ** Python strings and lists *)

(** [s.split(sep)] for a one-character separator. *)
Fixpoint str_split (sep : ascii) (s : string) : list string :=
  match s with
  | EmptyString => [EmptyString]
  | String c s' =>
      if Ascii.eqb c sep then EmptyString :: str_split sep s'
      else match str_split sep s' with
           | [] => [String c EmptyString]
           | w :: ws => String c w :: ws
           end
  end.

(** [l[i]] with Python's negative indices. *)
Definition py_index {A} (l : list A) (i : Z) : result A :=
  let n := Z.of_nat (length l) in
  let j := if (i <? 0)%Z then (i + n)%Z else i in
  if (j <? 0)%Z then Raise IndexError
  else match l !! Z.to_nat j with
       | Some x => Return x
       | None => Raise IndexError
       end.

(** [s.split('.')[0]] and [s.split('.')[-1]]; [str_split] never returns the
    empty list, so the default is never taken. *)
Definition split_first (sep : ascii) (s : string) : string :=
  match py_index (str_split sep s) 0 with
  | Return w => w
  | Raise _ => ""
  end.

Definition split_last (sep : ascii) (s : string) : string :=
  match py_index (str_split sep s) (-1) with
  | Return w => w
  | Raise _ => ""
  end.

(** [os.path.basename] on POSIX paths. *)
Definition basename (p : string) : string := split_last "/" p.

(** [os.path.join(d, f)] for a relative [f]. *)
Definition path_join (d f : string) : string :=
  if bool_decide (d = "") then f
  else if String.eqb (split_last "/" d) "" then d +:+ f
  else d +:+ "/" +:+ f.

(** ** The operating system, as far as the script sees it *)

(** One line of a converted scan file: the converter's columns. *)
Record ScanRow := { row_mz : float; row_rt : float; row_intensity : float }.

(** The csv files that can be read, by absolute path, and the target feature
    files, by path, as [csv.reader] yields them. *)
Record filesystem := {
  tables : gmap string (list ScanRow);
  texts : gmap string (list (list string))
}.

Definition write_table (p : string) (t : list ScanRow) (fs : filesystem) : filesystem :=
  {| tables := <[p := t]> (tables fs); texts := texts fs |}.

(** ** Cells, frames and the object heap *)

Inductive cell : Set :=
| CFloat (x : float)
| CStr (s : string).

Definition NaN : cell := CFloat nan.

(** [pandas.isna] on one value. *)
Definition isna (c : cell) : bool :=
  match c with
  | CFloat x => is_nan x
  | CStr _ => false
  end.

Record DataFrame := {
  columns : list string;
  rows : list (gmap string cell)
}.

Definition has_column (c : string) (d : DataFrame) : bool :=
  bool_decide (c ∈ columns d).

(** The values of column [c], row by row. *)
Definition column_values (c : string) (d : DataFrame) : list cell :=
  (fun r : gmap string cell => default NaN (r !! c)) <$> rows d.

(** [d.c]: attribute access to a column. *)
Definition getattr_column (c : string) (d : DataFrame) : result (list cell) :=
  if has_column c d then Return (column_values c d) else Raise AttributeError.

(** [d[c]]. *)
Definition getitem_column (c : string) (d : DataFrame) : result (list cell) :=
  if has_column c d then Return (column_values c d) else Raise KeyError.

(** [series < x] and [series > x] (also [Series.lt], [Series.gt]). *)
Definition cell_lt (x : float) (c : cell) : result bool :=
  match c with
  | CFloat y => Return (y <? x)%float
  | CStr _ => Raise TypeError
  end.

Definition cell_gt (x : float) (c : cell) : result bool :=
  match c with
  | CFloat y => Return (x <? y)%float
  | CStr _ => Raise TypeError
  end.

Definition series_lt (s : list cell) (x : float) : result (list bool) :=
  rmap (cell_lt x) s.

Definition series_gt (s : list cell) (x : float) : result (list bool) :=
  rmap (cell_gt x) s.

(** [a & b] and [np.logical_and(a, b)] on boolean series of one index. *)
Definition mask_and (a b : list bool) : list bool := zip_with andb a b.

(** The rows of [l] whose mask bit is set. *)
Fixpoint select_rows {A} (mask : list bool) (l : list A) : list A :=
  match mask, l with
  | b :: mask', x :: l' =>
      if b then x :: select_rows mask' l' else select_rows mask' l'
  | _, _ => []
  end.

(** Column [c] set to [v] in every row, the label appended if it is new. *)
Definition set_column (c : string) (v : cell) (d : DataFrame) : DataFrame :=
  {| columns := if has_column c d then columns d else columns d ++ [c];
     rows := (fun r : gmap string cell => <[c := v]> r) <$> rows d |}.

(** [d.loc[mask, c] = v]: a new column starts out as NaN everywhere, then the
    masked rows get [v]. *)
Definition loc_set_column (mask : list bool) (c : string) (v : cell)
    (d : DataFrame) : DataFrame :=
  let d0 := if has_column c d then d else set_column c NaN d in
  {| columns := columns d0;
     rows := zip_with (fun (b : bool) (r : gmap string cell) =>
                         if b then <[c := v]> r else r) mask (rows d0) |}.

(** [d[c].fillna(v, inplace=True)], written through to [d]. *)
Definition fillna_column (c : string) (v : cell) (d : DataFrame) : DataFrame :=
  {| columns := columns d;
     rows := (fun r : gmap string cell =>
                alter (fun x => if isna x then v else x) c r) <$> rows d |}.

(** [d[cs].values]: one list of cells per row, in the order of [cs]. *)
Definition frame_values (cs : list string) (d : DataFrame) : result (list (list cell)) :=
  if forallb (fun c => has_column c d) cs
  then Return ((fun r : gmap string cell =>
                  (fun c => default NaN (r !! c)) <$> cs) <$> rows d)
  else Raise KeyError.

(** [pandas.concat] of frames that all have the columns of the first. *)
Definition concat_frames (ds : list DataFrame) : result DataFrame :=
  match ds with
  | [] => Raise ValueError
  | d :: _ => Return {| columns := columns d; rows := ds ≫= rows |}
  end.

(** Objects live on a heap; a frame variable holds a reference. *)
Abbreviation ref := nat.
Abbreviation heap := (gmap nat DataFrame).

Definition M (A : Type) : Type := heap -> result A * heap.

Definition ret {A} (a : A) : M A := fun h => (Return a, h).
Definition throw {A} (e : exn) : M A := fun h => (Raise e, h).
Definition lift {A} (r : result A) : M A := fun h => (r, h).

Definition bind {A B} (m : M A) (k : A -> M B) : M B :=
  fun h => match m h with
           | (Return a, h') => k a h'
           | (Raise e, h') => (Raise e, h')
           end.

Notation "x <- m ;; k" := (bind m (fun x => k))
  (at level 100, m at next level, right associativity) : py_scope.
Notation "m ;;; k" := (bind m (fun _ => k))
  (at level 100, right associativity) : py_scope.

(** Dereference; a dangling reference does not occur in the script. *)
Definition load (r : ref) : M DataFrame :=
  fun h => match h !! r with
           | Some d => (Return d, h)
           | None => (Raise RuntimeError, h)
           end.

(** A new object at an unused address. *)
Definition alloc (d : DataFrame) : M ref :=
  fun h => let r := fresh (dom h) in (Return r, <[r := d]> h).

(** In-place update of the object behind [r]. *)
Definition update (r : ref) (f : DataFrame -> DataFrame) : M unit :=
  fun h => match h !! r with
           | Some d => (Return tt, <[r := f d]> h)
           | None => (Raise RuntimeError, h)
           end.

(** ** The script *)

(** [@dataclass class Feature]. *)
Record Feature := { mz : float; RT : float; feature_id : string }.

(** The keyword arguments of [EICgen(...)]; column numbers start at 1. *)
Record kwargs := {
  kw_target_dir : string;
  kw_target_file : string;
  kw_mz_column : Z;
  kw_rt_column : Z;
  kw_feature_id_col : Z;
  kw_mz_tolerance : float;
  kw_zoom_window : float
}.

(** The attributes of an [EICgen] object. *)
Record EICgen := {
  mzXML_dir : string;
  target_file : string;
  mz_col : Z;
  RT_col : Z;
  feature_id_col : Z;
  tolerance : float;
  zoom_window : float;
  dir_files : list string;
  mzXML_files : list string;
  mzCSV_files : list string;
  dfs : ref
}.

(** The header line of the output and the columns of a data line. *)
Definition header : list cell :=
  [CStr "Feature"; CStr "RT"; CStr "Intensity"; CStr "mz"; CStr "File"; CStr "Zoom"].

Definition out_columns : list string :=
  ["Feature"; "rt"; "intensity"; "mz"; "File"; "Zoom"].

(** [[f for f in dir_files if f.split('.')[-1] == 'mzXML']]. *)
Definition select_mzXML (files : list string) : list string :=
  List.filter (fun f => String.eqb (split_last "." f) "mzXML") files.

(** [mzXML_file.split('.')[0] + '.csv']. *)
Definition csv_path (mzXML_file : string) : string :=
  split_first "." mzXML_file +:+ ".csv".

(** [pandas.read_csv] on a converted file. *)
Definition frame_of_table (t : list ScanRow) : DataFrame :=
  {| columns := ["mz"; "rt"; "intensity"];
     rows := (fun s : ScanRow =>
                {[ "mz" := CFloat (row_mz s);
                   "rt" := CFloat (row_rt s);
                   "intensity" := CFloat (row_intensity s) ]}) <$> t |}.

(** [read_csv]: the table at [csv_file] with a [File] column added. *)
Definition read_csv (fs : filesystem) (csv_file : string) : result DataFrame :=
  match tables fs !! csv_file with
  | None => Raise FileNotFoundError
  | Some t =>
      let df := frame_of_table t in
      Return (set_column "File" (CStr (basename csv_file)) df)
  end.

(** [read_mzCSV_files]: the results of [executor.map] are taken in the order
    of [mzCSV_files], and an exception of a worker is raised when its result
    is taken. *)
Definition read_mzCSV_files (fs : filesystem) (mzCSV_files : list string) : M ref :=
  mz_csv_dfs <- lift (rmap (read_csv fs) mzCSV_files) ;;
  d <- lift (concat_frames mz_csv_dfs) ;;
  alloc d.

(** [get_feature_rows], statement by statement.  [self.dfs[mask]] makes a
    new frame; all later updates go to that frame. *)
Definition get_feature_rows (self : EICgen) (F : Feature) : M (list (list cell)) :=
  (* df = self.dfs[(self.dfs.mz < F.mz + tol) & (self.dfs.mz > F.mz - tol)] *)
  store <- load (dfs self) ;;
  mzs <- lift (getattr_column "mz" store) ;;
  below <- lift (series_lt mzs (mz F + tolerance self)) ;;
  above <- lift (series_gt mzs (mz F - tolerance self)) ;;
  df <- alloc {| columns := columns store;
                 rows := select_rows (mask_and below above) (rows store) |} ;;
  (* if not len(df): return [] *)
  d <- load df ;;
  if Nat.eqb (length (rows d)) 0 then ret []
  else
    (* df['Feature'] = F.feature_id *)
    update df (set_column "Feature" (CStr (feature_id F))) ;;;
    (* rt = df['rt'] *)
    d <- load df ;;
    rt <- lift (getitem_column "rt" d) ;;
    (* df.loc[np.logical_and(rt.lt(..), rt.gt(..)), 'Zoom'] = 'TRUE' *)
    early <- lift (series_lt rt (RT F + zoom_window self)) ;;
    late <- lift (series_gt rt (RT F - zoom_window self)) ;;
    update df (loc_set_column (mask_and early late) "Zoom" (CStr "TRUE")) ;;;
    (* df['Zoom'].fillna('FALSE', inplace=True) *)
    d <- load df ;;
    (if has_column "Zoom" d then ret tt else throw KeyError) ;;;
    update df (fillna_column "Zoom" (CStr "FALSE")) ;;;
    (* return df[['Feature', 'rt', 'intensity', 'mz', 'File', 'Zoom']].values *)
    d <- load df ;;
    lift (frame_values out_columns d).

(** The event loop of [asyncio.wait]: every pending task runs to its end in
    one go ([write_feature_rows] awaits only [get_feature_rows], which never
    suspends), and its rows go to the writer in one [writerows].  Which task
    is next is read off the schedule.  An exception of a task stays in the
    task: [wait] does not raise it. *)
Fixpoint event_loop (self : EICgen) (sched : list nat) (n : nat)
    (pending : list Feature) (EICfile : list (list cell)) (h : heap)
    : list (list cell) * heap :=
  match n with
  | O => (EICfile, h)
  | S n' =>
      let i := hd 0 sched `mod` length pending in
      match pending !! i with
      | None => (EICfile, h)
      | Some F =>
          match get_feature_rows self F h with
          | (Return rws, h') =>
              event_loop self (tl sched) n' (delete i pending) (EICfile ++ rws) h'
          | (Raise _, h') =>
              event_loop self (tl sched) n' (delete i pending) EICfile h'
          end
      end
  end.

Section Script.

(** Python's [float(str)]: [None] stands for [ValueError]. *)
Variable py_float : string -> option float.

(** [mzXML_to_csv.parse_mzXML]: it may raise, and it may write files. *)
Variable parse_mzXML : string -> filesystem -> result unit * filesystem.

(** [executor.submit(parse_mzXML, f)]: the future is dropped, and with it the
    exception of the call, if any.  The calls run on worker threads and the
    [with] block ends when all of them have ended; they are taken here in the
    order of submission. *)
Definition submit (f : string) (fs : filesystem) : filesystem :=
  snd (parse_mzXML f fs).

(** The loop of [convert_all_mzXML_to_CSV]; the third component lists the
    files handed to the executor. *)
Fixpoint convert_loop (listing todo mzCSV submitted : list string)
    (fs : filesystem) : list string * list string * filesystem :=
  match todo with
  | [] => (mzCSV, submitted, fs)
  | mzXML_file :: todo' =>
      let out := csv_path mzXML_file in
      let mzCSV' := mzCSV ++ [out] in
      if bool_decide (out ∈ listing)
      then convert_loop listing todo' mzCSV' submitted fs
      else convert_loop listing todo' mzCSV' (submitted ++ [mzXML_file])
             (submit mzXML_file fs)
  end.

Definition convert_all_mzXML_to_CSV (listing mzXML : list string)
    (fs : filesystem) : list string * list string * filesystem :=
  convert_loop listing mzXML [] [] fs.

(** [EICgen.__init__]; [listing] is what [os.listdir] returns, as absolute
    paths. *)
Definition init (kw : kwargs) (listing : list string) (fs : filesystem)
    : heap -> result EICgen * filesystem * heap :=
  fun h =>
    let mzXML := select_mzXML listing in
    let '(mzCSV, _, fs') := convert_all_mzXML_to_CSV listing mzXML fs in
    match read_mzCSV_files fs' mzCSV h with
    | (Raise e, h') => (Raise e, fs', h')
    | (Return r, h') =>
        (Return {| mzXML_dir := kw_target_dir kw;
                   target_file := kw_target_file kw;
                   mz_col := kw_mz_column kw - 1;
                   RT_col := kw_rt_column kw - 1;
                   feature_id_col := kw_feature_id_col kw - 1;
                   tolerance := kw_mz_tolerance kw;
                   zoom_window := kw_zoom_window kw;
                   dir_files := listing;
                   mzXML_files := mzXML;
                   mzCSV_files := mzCSV;
                   dfs := r |}, fs', h')
    end.

(** The body of the loop of [features]. *)
Definition parse_feature (self : EICgen) (row : list string) : result Feature :=
  a <~ py_index row (mz_col self) ;;
  x <~ match py_float a with Some x => Return x | None => Raise ValueError end ;;
  b <~ py_index row (RT_col self) ;;
  y <~ match py_float b with Some y => Return y | None => Raise ValueError end ;;
  i <~ py_index row (feature_id_col self) ;;
  Return {| mz := x; RT := y; feature_id := i |}.

(** [features], run to its end, as the list comprehension of [run] does.
    [next(reader)] on a file without lines ends the generator by
    [StopIteration], which Python turns into [RuntimeError]. *)
Definition features (self : EICgen) (fs : filesystem) : result (list Feature) :=
  match texts fs !! path_join (mzXML_dir self) (target_file self) with
  | None => Raise FileNotFoundError
  | Some [] => Raise RuntimeError
  | Some (_ :: body) => rmap (parse_feature self) body
  end.

(** [run]: what is in the output file at the end, and how [run] ends. *)
Definition run (self : EICgen) (sched : list nat) (fs : filesystem) (h : heap)
    : list (list cell) * result unit * heap :=
  let EICfile := [header] in
  match features self fs with
  | Raise e => (EICfile, Raise e, h)
  | Return [] => (EICfile, Raise ValueError, h)
  | Return fl =>
      let '(EICfile', h') := event_loop self sched (length fl) fl EICfile h in
      (EICfile', Return tt, h')
  end.

End Script.

(** ** The record store, seen as a list of scan records *)

(** One row of the store: a line of a converted file and the basename of
    that file. *)
Record ScanRecord := {
  rec_mz : float;
  rec_rt : float;
  rec_intensity : float;
  rec_file : string
}.

(** The row that [read_csv] makes of a scan record. *)
Definition record_row (r : ScanRecord) : gmap string cell :=
  <["File" := CStr (rec_file r)]>
    {[ "mz" := CFloat (rec_mz r);
       "rt" := CFloat (rec_rt r);
       "intensity" := CFloat (rec_intensity r) ]}.

Definition store_of (recs : list ScanRecord) : DataFrame :=
  {| columns := ["mz"; "rt"; "intensity"; "File"];
     rows := record_row <$> recs |}.

(** The scan records of one converted file, and of a list of such files. *)
Definition records_of_table (csv_file : string) (t : list ScanRow) : list ScanRecord :=
  (fun s : ScanRow =>
     {| rec_mz := row_mz s; rec_rt := row_rt s;
        rec_intensity := row_intensity s;
        rec_file := basename csv_file |}) <$> t.

Definition records_of_files (fs : filesystem) (files : list string) : list ScanRecord :=
  files ≫= (fun p => records_of_table p (default [] (tables fs !! p))).

(** [F.mz - tolerance < r.mz < F.mz + tolerance], in binary64 arithmetic. *)
Definition in_window (self : EICgen) (F : Feature) (r : ScanRecord) : bool :=
  ((rec_mz r <? mz F + tolerance self) && (mz F - tolerance self <? rec_mz r))%float.

(** [F.RT - zoom_window < rt < F.RT + zoom_window]. *)
Definition in_zoom (self : EICgen) (F : Feature) (rt : float) : bool :=
  ((rt <? RT F + zoom_window self) && (RT F - zoom_window self <? rt))%float.

Definition zoom_flag (b : bool) : string := if b then "TRUE" else "FALSE".

(** The output row of feature [F] and record [r]. *)
Definition emitted_row (self : EICgen) (F : Feature) (r : ScanRecord) : list cell :=
  [CStr (feature_id F); CFloat (rec_rt r); CFloat (rec_intensity r);
   CFloat (rec_mz r); CStr (rec_file r);
   CStr (zoom_flag (in_zoom self F (rec_rt r)))].

(** The rows of one feature, in the order of the store. *)
Definition feature_block (self : EICgen) (recs : list ScanRecord) (F : Feature)
    : list (list cell) :=
  emitted_row self F <$> List.filter (in_window self F) recs.

(** The specification's expected path, in its words the same stem with the
    tabular extension: the path with its last extension replaced by [.csv].
    It is compared with [csv_path], which is what the script computes. *)
Definition same_stem_csv (p : string) : string :=
  String.concat "." (removelast (str_split "." p)) +:+ ".csv".


(** ** Notions used in the proofs *)

(** The frame that boolean indexing makes of the records [l]. *)
Definition base_frame (l : list ScanRecord) : DataFrame :=
  {| columns := ["mz"; "rt"; "intensity"; "File"]; rows := record_row <$> l |}.

(** [m] leaves the heap as it is, or overwrites the object at [r]. *)
Definition only_writes {A} (r : ref) (m : M A) : Prop :=
  forall h, (m h).2 = h \/ exists d, (m h).2 = <[r := d]> h.

(** ** Sample inputs *)

(** A stand-in for [float] in the examples: it reads a plain decimal numeral
    of at most fifteen digits and refuses every other string, as [float]
    refuses ['abc']. *)
Fixpoint digits_value (s : string) (acc : Z) : option Z :=
  match s with
  | EmptyString => Some acc
  | String c s' =>
      let n := (Z.of_N (N_of_ascii c) - 48)%Z in
      if ((0 <=? n) && (n <=? 9))%Z then digits_value s' (10 * acc + n)%Z
      else None
  end.

Definition float_of_digits (s : string) : option float :=
  if bool_decide (s = "") || (15 <? String.length s)%nat then None
  else match digits_value s 0 with
       | Some z => Some (of_uint63 (Uint63.of_Z z))
       | None => None
       end.

(** A converter that always raises and writes nothing. *)
Definition failing_converter (f : string) (fs : filesystem)
    : result unit * filesystem :=
  (Raise ConverterError, fs).

(** A converter that writes an empty table next to its input. *)
Definition writing_converter (f : string) (fs : filesystem)
    : result unit * filesystem :=
  (Return tt, write_table (csv_path f) [] fs).

(** Three records of one file: one inside the window of [sample_feature],
    one on its upper mz bound, one on the upper bound of its zoom window. *)
Definition record_hit : ScanRecord :=
  {| rec_mz := 100; rec_rt := 50; rec_intensity := 7; rec_file := "a.csv" |}.

Definition record_edge : ScanRecord :=
  {| rec_mz := 100.5; rec_rt := 81; rec_intensity := 8; rec_file := "a.csv" |}.

Definition record_late : ScanRecord :=
  {| rec_mz := 100.25; rec_rt := 80; rec_intensity := 9; rec_file := "a.csv" |}.

Definition sample_records : list ScanRecord :=
  [record_hit; record_edge; record_late].

Definition sample_table : list ScanRow :=
  [ {| row_mz := 100; row_rt := 50; row_intensity := 7 |};
    {| row_mz := 100.5; row_rt := 81; row_intensity := 8 |};
    {| row_mz := 100.25; row_rt := 80; row_intensity := 9 |} ].

Definition sample_fs : filesystem :=
  {| tables := {[ "/data/a.csv" := sample_table ]};
     texts := {[ "/data/t.csv" := [ ["id"; "mz"; "rt"];
                                    ["f1"; "100"; "50"];
                                    ["f2"; "200"; "60"];
                                    ["f3"; "100"; "120"] ];
                 "/data/bad.csv" := [ ["id"; "mz"; "rt"];
                                      ["f1"; "abc"; "50"] ];
                 "/data/empty.csv" := [ ["id"; "mz"; "rt"] ] ]} |}.

Definition sample_listing : list string :=
  ["/data/a.mzXML"; "/data/a.csv"; "/data/t.csv"].

Definition sample_self (target : string) : EICgen :=
  {| mzXML_dir := "/data";
     target_file := target;
     mz_col := 1;
     RT_col := 2;
     feature_id_col := 0;
     tolerance := 0.5;
     zoom_window := 30;
     dir_files := sample_listing;
     mzXML_files := ["/data/a.mzXML"];
     mzCSV_files := ["/data/a.csv"];
     dfs := 0 |}.

Definition sample_heap : heap := {[ 0 := store_of sample_records ]}.

Definition sample_feature : Feature :=
  {| mz := 100; RT := 50; feature_id := "f1" |}.

Definition unmatched_feature : Feature :=
  {| mz := 200; RT := 60; feature_id := "f2" |}.

(** A directory with a raw file and no converted file. *)
Definition raw_listing : list string := ["/data/b.mzXML"].

Definition sample_kwargs : kwargs :=
  {| kw_target_dir := "/data";
     kw_target_file := "t.csv";
     kw_mz_column := 2;
     kw_rt_column := 3;
     kw_feature_id_col := 1;
     kw_mz_tolerance := 0.5;
     kw_zoom_window := 30 |}.

(** Raw files below a directory whose name has a dot, as the directory
    [LipidMatch_Flow_3.5] of the distribution has; the second listing also
    holds the converted file of the first raw file. *)
Definition dotted_raw : string := "/home/u/LipidMatch_Flow_3.5/data/a.mzXML".

Definition dotted_listing : list string :=
  ["/home/u/LipidMatch_Flow_3.5/data/a.mzXML";
   "/home/u/LipidMatch_Flow_3.5/data/b.mzXML"].

Definition dotted_listing_converted : list string :=
  ["/home/u/LipidMatch_Flow_3.5/data/a.mzXML";
   "/home/u/LipidMatch_Flow_3.5/data/a.csv"].

(** ** The remaining functions of the script *)

(** [range(0, stop, step)], as a list. *)
Definition py_range0 (stop : nat) (step : Z) : result (list nat) :=
  if (step =? 0)%Z then Raise ValueError
  else if (step <? 0)%Z then Return []
  else
    let k := Z.to_nat step in
    Return ((fun j => j * k) <$> seq 0 (Nat.div (stop + k - 1) k)).

(** [EICgen.chunk], run to its end: [rows[i:i + chunk_size]] for every [i]
    of [range(0, len(rows), chunk_size)]. *)
Definition chunk {A} (rws : list A) (chunk_size : Z) : result (list (list A)) :=
  starts <~ py_range0 (length rws) chunk_size ;;
  Return ((fun i => take (Z.to_nat chunk_size) (drop i rws)) <$> starts).

Section Main.

Variable py_float : string -> option float.
Variable parse_mzXML : string -> filesystem -> result unit * filesystem.

(** The [__main__] block: [e = EICgen(...)] on the parsed arguments and then
    [asyncio.run(e.run())].  The first component is the output file: [None]
    when it was never opened. *)
Definition main (kw : kwargs) (listing : list string) (fs : filesystem)
    (sched : list nat) (h : heap) : option (list (list cell)) * result unit :=
  match init parse_mzXML kw listing fs h with
  | (Raise e, _, _) => (None, Raise e)
  | (Return e, fs', h') =>
      let '(EICfile, r, _) := run py_float e sched fs' h' in
      (Some EICfile, r)
  end.

End Main.

(** A store whose frame has no [mz] column. *)
Definition broken_heap : heap :=
  {[ 0 := {| columns := ["rt"; "intensity"; "File"]; rows := [] |} ]}.

(** A record and a feature whose m/z is not a number. *)
Definition record_nan : ScanRecord :=
  {| rec_mz := nan; rec_rt := 50; rec_intensity := 1; rec_file := "a.csv" |}.

Definition feature_nan : Feature :=
  {| mz := nan; RT := 50; feature_id := "fn" |}.

Definition nan_heap : heap := {[ 0 := store_of [record_nan; record_hit] ]}.

(** A converter that writes [sample_table] next to its input. *)
Definition sample_converter (f : string) (fs : filesystem)
    : result unit * filesystem :=
  (Return tt, write_table (csv_path f) sample_table fs).

(** [sample_fs] with another first line in the target file. *)
Definition other_header_fs : filesystem :=
  {| tables := tables sample_fs;
     texts := {[ "/data/t.csv" := [ ["1"; "2"; "3"];
                                    ["f1"; "100"; "50"];
                                    ["f2"; "200"; "60"];
                                    ["f3"; "100"; "120"] ] ]} |}.

(** [sample_self] with a zoom window of one second, and [sample_feature]
    at another retention time. *)
Definition narrow_self : EICgen :=
  {| mzXML_dir := "/data";
     target_file := "t.csv";
     mz_col := 1;
     RT_col := 2;
     feature_id_col := 0;
     tolerance := 0.5;
     zoom_window := 1;
     dir_files := sample_listing;
     mzXML_files := ["/data/a.mzXML"];
     mzCSV_files := ["/data/a.csv"];
     dfs := 0 |}.

Definition late_feature : Feature :=
  {| mz := 100; RT := 120; feature_id := "f1" |}.

(** * Properties *)

(** ** Binary64 comparison *)

Lemma float_ltb_irrefl (x : float) : (x <? x)%float = false.
Proof.
  rewrite ltb_spec. unfold SFltb, SFcompare.
  destruct (Prim2SF x) as [s|s| |s m e]; try (destruct s; reflexivity);
    try reflexivity.
  rewrite Z.compare_refl.
  change (PosDef.Pos.compare_cont Eq m m) with (Pos.compare m m).
  rewrite Pos.compare_refl.
  destruct s; reflexivity.
Qed.

(** ** Lists and results *)

Lemma rmap_total {A B C} (f : A -> result B) (g : C -> B) (h : C -> A) (l : list C) :
  (forall x, f (h x) = Return (g x)) ->
  rmap f (h <$> l) = Return (g <$> l).
Proof.
  intros Hf. induction l as [|x l IH]; [reflexivity|].
  rewrite !fmap_cons. simpl. rewrite Hf. simpl. rewrite IH. reflexivity.
Qed.

Lemma rmap_raise {A B} (f : A -> result B) (l : list A) (x : A) (e : exn) :
  x ∈ l -> f x = Raise e ->
  exists e', rmap f l = Raise e'.
Proof.
  induction 1 as [x l|x y l _ IH]; intros Hx; simpl.
  - rewrite Hx. eauto.
  - destruct (f y); simpl; [|eauto].
    destruct (IH Hx) as [e' ->]. eauto.
Qed.

Lemma rmap_raise_uniform {A B} (f : A -> result B) (l : list A) (x : A) (e : exn) :
  (forall y e', f y = Raise e' -> e' = e) ->
  x ∈ l -> f x = Raise e ->
  rmap f l = Raise e.
Proof.
  intros Hu Hin Hx. destruct (rmap_raise f l x e Hin Hx) as [e' He'].
  rewrite He'. f_equal.
  clear Hin Hx. revert He'. induction l as [|y l IH]; simpl; [discriminate|].
  destruct (f y) eqn:Hy; simpl.
  - destruct (rmap f l); simpl; [discriminate|]. intros [= <-]. auto.
  - intros [= <-]. eauto.
Qed.

Lemma zip_with_fmap_same {A B C D} (g : B -> C -> D) (f1 : A -> B) (f2 : A -> C)
    (l : list A) :
  zip_with g (f1 <$> l) (f2 <$> l) = (fun x => g (f1 x) (f2 x)) <$> l.
Proof. induction l as [|x l IH]; [reflexivity|]. rewrite !fmap_cons. simpl. by rewrite IH. Qed.

Lemma select_rows_fmap {A B} (p : A -> bool) (g : A -> B) (l : list A) :
  select_rows (p <$> l) (g <$> l) = g <$> List.filter p l.
Proof.
  induction l as [|x l IH]; [reflexivity|].
  rewrite !fmap_cons. simpl.
  destruct (p x); rewrite IH; reflexivity.
Qed.

Lemma str_split_nonempty (sep : ascii) (s : string) : str_split sep s <> [].
Proof.
  destruct s as [|c s]; simpl; [discriminate|].
  destruct (Ascii.eqb c sep); [discriminate|].
  destruct (str_split sep s); discriminate.
Qed.

(** ** The frames of the store *)

Lemma store_column_mz (recs : list ScanRecord) :
  column_values "mz" (store_of recs) = (fun r => CFloat (rec_mz r)) <$> recs.
Proof.
  unfold column_values, store_of; simpl.
  rewrite <- list_fmap_compose. apply list_fmap_ext. intros i r _. reflexivity.
Qed.


(** ** The state monad *)

Lemma bind_Return {A B} (m : M A) (k : A -> M B) (h h1 : heap) (a : A) :
  m h = (Return a, h1) -> bind m k h = k a h1.
Proof. intros Hm. unfold bind. rewrite Hm. reflexivity. Qed.

Lemma bind_Raise {A B} (m : M A) (k : A -> M B) (h h1 : heap) (e : exn) :
  m h = (Raise e, h1) -> bind m k h = (Raise e, h1).
Proof. intros Hm. unfold bind. rewrite Hm. reflexivity. Qed.

Lemma load_Some (r : ref) (h : heap) (d : DataFrame) :
  h !! r = Some d -> load r h = (Return d, h).
Proof. intros Hr. unfold load. rewrite Hr. reflexivity. Qed.

Lemma update_Some (r : ref) (f : DataFrame -> DataFrame) (h : heap) (d : DataFrame) :
  h !! r = Some d -> update r f h = (Return tt, <[r := f d]> h).
Proof. intros Hr. unfold update. rewrite Hr. reflexivity. Qed.

(** ** The frame of one feature *)

Lemma feature_frame_rt (fid : string) (l : list ScanRecord) :
  getitem_column "rt" (set_column "Feature" (CStr fid) (base_frame l))
  = Return ((fun r => CFloat (rec_rt r)) <$> l).
Proof.
  unfold getitem_column, column_values, set_column, base_frame; simpl.
  rewrite <- !list_fmap_compose. f_equal.
Qed.

Lemma zoom_frame_values (fid : string) (b : ScanRecord -> bool) (l : list ScanRecord) :
  frame_values out_columns
    (fillna_column "Zoom" (CStr "FALSE")
       (loc_set_column (b <$> l) "Zoom" (CStr "TRUE")
          (set_column "Feature" (CStr fid) (base_frame l))))
  = Return ((fun r => [CStr fid; CFloat (rec_rt r); CFloat (rec_intensity r);
                       CFloat (rec_mz r); CStr (rec_file r);
                       CStr (zoom_flag (b r))]) <$> l).
Proof.
  unfold frame_values.
  change (forallb _ out_columns) with true. cbv iota. f_equal.
  unfold fillna_column, loc_set_column, set_column, base_frame; simpl.
  rewrite <- !list_fmap_compose.
  rewrite zip_with_fmap_same, <- list_fmap_compose.
  apply list_fmap_ext. intros i r _. simpl.
  destruct (b r); reflexivity.
Qed.

Lemma store_mask (self : EICgen) (F : Feature) (recs : list ScanRecord) :
  exists below above,
    series_lt (column_values "mz" (store_of recs)) (mz F + tolerance self) = Return below
    /\ series_gt (column_values "mz" (store_of recs)) (mz F - tolerance self) = Return above
    /\ select_rows (mask_and below above) (rows (store_of recs))
       = record_row <$> List.filter (in_window self F) recs.
Proof.
  eexists _, _. rewrite store_column_mz. unfold series_lt, series_gt.
  split; [|split].
  - apply (rmap_total _ (fun r => (rec_mz r <? mz F + tolerance self)%float)).
    reflexivity.
  - apply (rmap_total _ (fun r => (mz F - tolerance self <? rec_mz r)%float)).
    reflexivity.
  - unfold mask_and. rewrite zip_with_fmap_same. simpl.
    apply (select_rows_fmap (in_window self F)).
Qed.

Lemma get_feature_rows_store (self : EICgen) (F : Feature)
    (recs : list ScanRecord) (h : heap) :
  h !! dfs self = Some (store_of recs) ->
  exists h', get_feature_rows self F h = (Return (feature_block self recs F), h')
             /\ h ⊆ h'.
Proof.
  intros Hs.
  assert (Hfresh : h !! fresh (dom h) = None).
  { apply not_elem_of_dom, is_fresh. }
  destruct (store_mask self F recs) as (below & above & Hb & Ha & Hsel).
  unfold get_feature_rows.
  rewrite (bind_Return _ _ h h (store_of recs)) by (by apply load_Some).
  unfold getattr_column. change (has_column "mz" (store_of recs)) with true.
  cbv iota.
  rewrite (bind_Return _ _ h h (column_values "mz" (store_of recs))) by reflexivity.
  rewrite (bind_Return _ _ h h below) by (unfold lift; by rewrite Hb).
  rewrite (bind_Return _ _ h h above) by (unfold lift; by rewrite Ha).
  rewrite Hsel.
  unfold feature_block.
  generalize (List.filter (in_window self F) recs). intros l.
  change {| columns := columns (store_of recs); rows := record_row <$> l |}
    with (base_frame l).
  set (df := fresh (dom h)) in *.
  rewrite (bind_Return (alloc (base_frame l)) _ h (<[df := base_frame l]> h) df)
    by reflexivity.
  rewrite (bind_Return _ _ _ (<[df := base_frame l]> h) (base_frame l))
    by (apply load_Some, lookup_insert_eq).
  destruct (length (rows (base_frame l)) =? 0)%nat eqn:Elen.
  { exists (<[df := base_frame l]> h). split; [|by apply insert_subseteq].
    apply Nat.eqb_eq in Elen. simpl in Elen. rewrite length_fmap in Elen.
    by apply nil_length_inv in Elen as ->. }
  set (d1 := set_column "Feature" (CStr (feature_id F)) (base_frame l)).
  rewrite (bind_Return _ _ _ (<[df := d1]> h) tt).
  2:{ rewrite (update_Some _ _ _ (base_frame l)) by apply lookup_insert_eq.
      by rewrite insert_insert_eq. }
  rewrite (bind_Return _ _ _ (<[df := d1]> h) d1)
    by (apply load_Some, lookup_insert_eq).
  rewrite (bind_Return _ _ _ (<[df := d1]> h) ((fun r => CFloat (rec_rt r)) <$> l))
    by (unfold lift, d1; by rewrite feature_frame_rt).
  rewrite (bind_Return _ _ _ (<[df := d1]> h)
             ((fun r => (rec_rt r <? RT F + zoom_window self)%float) <$> l)).
  2:{ unfold lift, series_lt.
      by rewrite (rmap_total _ (fun r => (rec_rt r <? RT F + zoom_window self)%float)). }
  rewrite (bind_Return _ _ _ (<[df := d1]> h)
             ((fun r => (RT F - zoom_window self <? rec_rt r)%float) <$> l)).
  2:{ unfold lift, series_gt.
      by rewrite (rmap_total _ (fun r => (RT F - zoom_window self <? rec_rt r)%float)). }
  unfold mask_and. rewrite zip_with_fmap_same.
  change (fun x : ScanRecord => (rec_rt x <? RT F + zoom_window self)%float
                                && (RT F - zoom_window self <? rec_rt x)%float)
    with (fun x : ScanRecord => in_zoom self F (rec_rt x)).
  set (d2 := loc_set_column ((fun x => in_zoom self F (rec_rt x)) <$> l) "Zoom"
               (CStr "TRUE") d1).
  rewrite (bind_Return _ _ _ (<[df := d2]> h) tt).
  2:{ rewrite (update_Some _ _ _ d1) by apply lookup_insert_eq.
      by rewrite insert_insert_eq. }
  rewrite (bind_Return _ _ _ (<[df := d2]> h) d2)
    by (apply load_Some, lookup_insert_eq).
  change (has_column "Zoom" d2) with true. cbv iota.
  rewrite (bind_Return (ret tt) _ _ (<[df := d2]> h) tt) by reflexivity.
  set (d3 := fillna_column "Zoom" (CStr "FALSE") d2).
  rewrite (bind_Return _ _ _ (<[df := d3]> h) tt).
  2:{ rewrite (update_Some _ _ _ d2) by apply lookup_insert_eq.
      by rewrite insert_insert_eq. }
  rewrite (bind_Return _ _ _ (<[df := d3]> h) d3)
    by (apply load_Some, lookup_insert_eq).
  exists (<[df := d3]> h). split.
  - unfold lift, d3, d2, d1.
    rewrite (zoom_frame_values _ (fun x => in_zoom self F (rec_rt x))).
    reflexivity.
  - by apply insert_subseteq.
Qed.

(** ** What a computation may write *)

Lemma only_writes_ret {A} (r : ref) (a : A) : only_writes r (ret a).
Proof. intros h. by left. Qed.

Lemma only_writes_throw {A} (r : ref) (e : exn) : only_writes r (@throw A e).
Proof. intros h. by left. Qed.

Lemma only_writes_lift {A} (r : ref) (x : result A) : only_writes r (lift x).
Proof. intros h. by left. Qed.

Lemma only_writes_load (r r' : ref) : only_writes r (load r').
Proof. intros h. unfold load. destruct (h !! r'); by left. Qed.

Lemma only_writes_update (r : ref) (f : DataFrame -> DataFrame) :
  only_writes r (update r f).
Proof.
  intros h. unfold update. destruct (h !! r) as [d|]; [right|left]; eauto.
Qed.

Lemma only_writes_bind {A B} (r : ref) (m : M A) (k : A -> M B) :
  only_writes r m -> (forall a, only_writes r (k a)) -> only_writes r (bind m k).
Proof.
  intros Hm Hk h. unfold bind.
  specialize (Hm h). destruct (m h) as [[a|e] h1]; simpl in *; [|done].
  specialize (Hk a h1).
  destruct Hm as [->|[d ->]]; [done|].
  destruct Hk as [->|[d' ->]]; [eauto|].
  right. exists d'. by rewrite insert_insert_eq.
Qed.

Lemma only_writes_if {A} (r : ref) (b : bool) (m1 m2 : M A) :
  only_writes r m1 -> only_writes r m2 -> only_writes r (if b then m1 else m2).
Proof. by destruct b. Qed.

Lemma frame_bind_lift {A B} (x : result A) (k : A -> M B) (h : heap) :
  (forall a, h ⊆ (k a h).2) -> h ⊆ (bind (lift x) k h).2.
Proof. intros Hk. unfold bind, lift. destruct x; simpl; [apply Hk|done]. Qed.

Lemma frame_bind_load {B} (r : ref) (k : DataFrame -> M B) (h : heap) :
  (forall d, h ⊆ (k d h).2) -> h ⊆ (bind (load r) k h).2.
Proof.
  intros Hk. unfold bind, load. destruct (h !! r); simpl; [apply Hk|done].
Qed.

Lemma frame_bind_alloc {B} (d : DataFrame) (k : ref -> M B) (h : heap) :
  (forall r, only_writes r (k r)) -> h ⊆ (bind (alloc d) k h).2.
Proof.
  intros Hk. unfold bind, alloc.
  assert (Hfresh : h !! fresh (dom h) = None).
  { apply not_elem_of_dom, is_fresh. }
  cbv beta iota zeta.
  destruct (Hk (fresh (dom h)) (<[fresh (dom h) := d]> h)) as [Hw|[d' Hw]];
    rewrite Hw.
  - by apply insert_subseteq.
  - rewrite insert_insert_eq. by apply insert_subseteq.
Qed.

(** Extraction never changes an object that was on the heap before. *)
Lemma get_feature_rows_frame (self : EICgen) (F : Feature) (h : heap) :
  h ⊆ (get_feature_rows self F h).2.
Proof.
  unfold get_feature_rows.
  apply frame_bind_load; intros store.
  apply frame_bind_lift; intros mzs.
  apply frame_bind_lift; intros below.
  apply frame_bind_lift; intros above.
  apply frame_bind_alloc; intros df.
  repeat first
    [ apply only_writes_bind; [|intros ?]
    | apply only_writes_if
    | apply only_writes_load
    | apply only_writes_update
    | apply only_writes_lift
    | apply only_writes_ret
    | apply only_writes_throw ].
Qed.

(** ** The event loop *)

Lemma length_list_bind {A B} (f : A -> list B) (l : list A) :
  length (l ≫= f) = sum_list_with (fun x => length (f x)) l.
Proof.
  induction l as [|x l IH]; [reflexivity|].
  rewrite bind_cons, length_app, IH. reflexivity.
Qed.

Lemma event_loop_store (self : EICgen) (recs : list ScanRecord) (n : nat) :
  forall (sched : list nat) (pending : list Feature) (out : list (list cell)) (h : heap),
    h !! dfs self = Some (store_of recs) ->
    length pending = n ->
    exists order h',
      event_loop self sched n pending out h
      = (out ++ (order ≫= feature_block self recs), h')
      /\ order ≡ₚ pending /\ h ⊆ h'.
Proof.
  induction n as [|n IH]; intros sched pending out h Hs Hlen.
  - apply nil_length_inv in Hlen as ->. exists [], h. simpl.
    rewrite app_nil_r. done.
  - simpl.
    destruct (lookup_lt_is_Some_2 pending (hd 0 sched `mod` length pending))
      as [F HF].
    { apply Nat.mod_upper_bound. lia. }
    rewrite HF.
    destruct (get_feature_rows_store self F recs h Hs) as (h1 & -> & Hsub).
    destruct (IH (tl sched) (delete (hd 0 sched `mod` length pending) pending)
                (out ++ feature_block self recs F) h1) as (order & h' & -> & Hp & Hsub').
    { eapply lookup_weaken; eauto. }
    { rewrite length_delete by eauto. lia. }
    exists (F :: order), h'. split; [|split].
    + by rewrite bind_cons, app_assoc.
    + rewrite Hp. symmetry. by apply delete_Permutation.
    + by etrans.
Qed.

(** With an arbitrary heap the loop still only appends to the file. *)
Lemma event_loop_appends (self : EICgen) (n : nat) :
  forall (sched : list nat) (pending : list Feature) (out : list (list cell)) (h : heap),
    exists data, (event_loop self sched n pending out h).1 = out ++ data.
Proof.
  induction n as [|n IH]; intros sched pending out h; simpl.
  - exists []. by rewrite app_nil_r.
  - destruct (pending !! _); [|exists []; by rewrite app_nil_r].
    destruct (get_feature_rows self f h) as [[rws|e] h1].
    + destruct (IH (tl sched) (delete (hd 0 sched `mod` length pending) pending)
                  (out ++ rws) h1) as [data ->].
      exists (rws ++ data). by rewrite app_assoc.
    + apply IH.
Qed.

Lemma event_loop_frame (self : EICgen) (n : nat) :
  forall (sched : list nat) (pending : list Feature) (out : list (list cell)) (h : heap),
    h ⊆ (event_loop self sched n pending out h).2.
Proof.
  induction n as [|n IH]; intros sched pending out h; simpl; [done|].
  destruct (pending !! _); [|done].
  pose proof (get_feature_rows_frame self f h) as Hf.
  destruct (get_feature_rows self f h) as [[rws|e] h1]; simpl in Hf;
    (etrans; [exact Hf|apply IH]).
Qed.

(** ** Building the store *)

Lemma read_csv_store (fs : filesystem) (p : string) (t : list ScanRow) :
  tables fs !! p = Some t ->
  read_csv fs p = Return (store_of (records_of_table p t)).
Proof.
  intros Hp. unfold read_csv. rewrite Hp. f_equal.
  unfold set_column, frame_of_table, store_of, records_of_table; simpl.
  f_equal. rewrite <- !list_fmap_compose. reflexivity.
Qed.

Lemma read_csv_raises (fs : filesystem) (p : string) (e : exn) :
  read_csv fs p = Raise e -> e = FileNotFoundError.
Proof.
  unfold read_csv. destruct (tables fs !! p); [discriminate|]. by intros [= <-].
Qed.

Lemma rmap_read_csv (fs : filesystem) (files : list string) :
  (forall p, p ∈ files -> is_Some (tables fs !! p)) ->
  rmap (read_csv fs) files
  = Return ((fun p => store_of (records_of_table p (default [] (tables fs !! p))))
              <$> files).
Proof.
  induction files as [|p files IH]; intros Hall; [reflexivity|].
  destruct (Hall p) as [t Ht]; [by left|].
  simpl. rewrite (read_csv_store fs p t Ht). simpl.
  rewrite IH by (intros q Hq; apply Hall; by right). simpl.
  by rewrite Ht.
Qed.

Lemma rows_of_stores (fs : filesystem) (files : list string) :
  ((fun p => store_of (records_of_table p (default [] (tables fs !! p)))) <$> files)
    ≫= rows
  = record_row <$> records_of_files fs files.
Proof.
  unfold records_of_files.
  induction files as [|p files IH]; [reflexivity|].
  rewrite fmap_cons, !bind_cons, fmap_app, IH. reflexivity.
Qed.

Lemma read_mzCSV_files_store (fs : filesystem) (files : list string) (h : heap) :
  files <> [] ->
  (forall p, p ∈ files -> is_Some (tables fs !! p)) ->
  exists r h',
    read_mzCSV_files fs files h = (Return r, h')
    /\ h' !! r = Some (store_of (records_of_files fs files))
    /\ h ⊆ h'.
Proof.
  intros Hne Hall. unfold read_mzCSV_files.
  rewrite (bind_Return _ _ h h _ (f_equal (fun x => (x, h)) (rmap_read_csv fs files Hall))).
  destruct files as [|p files]; [done|].
  set (ds := _ <$> (p :: files)).
  assert (Hc : concat_frames ds = Return (store_of (records_of_files fs (p :: files)))).
  { unfold store_of at 1. rewrite <- rows_of_stores. reflexivity. }
  rewrite (bind_Return _ _ h h _ (f_equal (fun x => (x, h)) Hc)).
  eexists _, _. split; [reflexivity|]. split.
  - apply lookup_insert_eq.
  - apply insert_subseteq, not_elem_of_dom, is_fresh.
Qed.

Lemma read_mzCSV_files_missing (fs : filesystem) (files : list string)
    (p : string) (h : heap) :
  p ∈ files -> tables fs !! p = None ->
  read_mzCSV_files fs files h = (Raise FileNotFoundError, h).
Proof.
  intros Hin Hp. unfold read_mzCSV_files.
  apply bind_Raise. unfold lift. f_equal.
  apply (rmap_raise_uniform _ _ p).
  - intros q e. apply read_csv_raises.
  - done.
  - unfold read_csv. by rewrite Hp.
Qed.

(** ** Extraction of one feature *)

Lemma emitted_row_mz (self : EICgen) (F : Feature) (r r' : ScanRecord) :
  emitted_row self F r = emitted_row self F r' -> rec_mz r = rec_mz r'.
Proof. unfold emitted_row. intros [= _ _ Hmz _]. exact Hmz. Qed.

Lemma in_window_spec (self : EICgen) (F : Feature) (r : ScanRecord) :
  in_window self F r = true <->
  (mz F - tolerance self <? rec_mz r)%float = true
  /\ (rec_mz r <? mz F + tolerance self)%float = true.
Proof. unfold in_window. rewrite andb_true_iff. tauto. Qed.

Lemma feature_block_elem (self : EICgen) (F : Feature) (recs : list ScanRecord)
    (r : ScanRecord) :
  r ∈ recs ->
  emitted_row self F r ∈ feature_block self recs F <-> in_window self F r = true.
Proof.
  intros Hr. unfold feature_block. rewrite list_elem_of_fmap. split.
  - intros (r' & Heq & Hr').
    apply list_elem_of_In, filter_In in Hr' as [_ Hw].
    unfold in_window in *. by rewrite (emitted_row_mz self F r r' Heq).
  - intros Hw. exists r. split; [done|].
    apply list_elem_of_In, filter_In. split; [by apply list_elem_of_In|done].
Qed.

(** C1. Tolerance filter: for a store holding the records [recs], the row of
    a record [r] of the store is among the rows that extraction of [F]
    returns if and only if [F.mz - tolerance < r.mz < F.mz + tolerance], both
    comparisons strict in binary64; a record whose mz equals one of the two
    bounds is left out. *)
Theorem C1_tolerance_filter (self : EICgen) (F : Feature)
    (recs : list ScanRecord) (h : heap) (r : ScanRecord) :
  h !! dfs self = Some (store_of recs) ->
  r ∈ recs ->
  exists rws h',
    get_feature_rows self F h = (Return rws, h')
    /\ (emitted_row self F r ∈ rws <->
        (mz F - tolerance self <? rec_mz r)%float = true
        /\ (rec_mz r <? mz F + tolerance self)%float = true)
    /\ (rec_mz r = (mz F + tolerance self)%float -> emitted_row self F r ∉ rws)
    /\ (rec_mz r = (mz F - tolerance self)%float -> emitted_row self F r ∉ rws).
Proof.
  intros Hs Hr.
  destruct (get_feature_rows_store self F recs h Hs) as (h' & Hrun & _).
  exists (feature_block self recs F), h'. split; [exact Hrun|].
  rewrite (feature_block_elem self F recs r Hr), in_window_spec.
  split; [reflexivity|]. split.
  - intros Heq [_ Hlt]. rewrite Heq, float_ltb_irrefl in Hlt. discriminate.
  - intros Heq [Hlt _]. rewrite Heq, float_ltb_irrefl in Hlt. discriminate.
Qed.

(** C2. Zoom tagging: every row that extraction of [F] returns carries, in
    this order, the feature id, the rt, intensity and mz of a record of the
    store, its file, and the flag, which is the string TRUE when
    [F.RT - zoom_window < rt < F.RT + zoom_window] (both strict) and the
    string FALSE otherwise. *)
Theorem C2_zoom_tagging (self : EICgen) (F : Feature)
    (recs : list ScanRecord) (h : heap) :
  h !! dfs self = Some (store_of recs) ->
  exists rws h',
    get_feature_rows self F h = (Return rws, h')
    /\ forall row, row ∈ rws ->
         exists r, r ∈ recs
           /\ row = [CStr (feature_id F); CFloat (rec_rt r);
                     CFloat (rec_intensity r); CFloat (rec_mz r);
                     CStr (rec_file r);
                     CStr (if ((RT F - zoom_window self <? rec_rt r)
                               && (rec_rt r <? RT F + zoom_window self))%float
                           then "TRUE" else "FALSE")].
Proof.
  intros Hs.
  destruct (get_feature_rows_store self F recs h Hs) as (h' & Hrun & _).
  exists (feature_block self recs F), h'. split; [exact Hrun|].
  intros row Hrow. unfold feature_block in Hrow.
  apply list_elem_of_fmap in Hrow as (r & -> & Hr).
  apply list_elem_of_In, filter_In in Hr as [Hr _].
  exists r. split; [by apply list_elem_of_In|].
  unfold emitted_row, zoom_flag, in_zoom. by rewrite andb_comm.
Qed.

(** C6. No match is no error: when no record of the store lies in the mz
    window of [F], extraction returns the empty list of rows and raises
    nothing. *)
Theorem C6_no_match_no_error (self : EICgen) (F : Feature)
    (recs : list ScanRecord) (h : heap) :
  h !! dfs self = Some (store_of recs) ->
  (forall r, r ∈ recs ->
     ~ ((mz F - tolerance self <? rec_mz r)%float = true
        /\ (rec_mz r <? mz F + tolerance self)%float = true)) ->
  exists h', get_feature_rows self F h = (Return [], h').
Proof.
  intros Hs Hnone.
  destruct (get_feature_rows_store self F recs h Hs) as (h' & Hrun & _).
  exists h'. rewrite Hrun. do 2 f_equal.
  unfold feature_block.
  replace (List.filter (in_window self F) recs) with (@nil ScanRecord);
    [reflexivity|].
  symmetry. clear Hs Hrun. induction recs as [|r recs IH]; [reflexivity|].
  simpl. destruct (in_window self F r) eqn:Hw.
  - exfalso. apply (Hnone r); [by left|]. by apply in_window_spec.
  - apply IH. intros r' Hr'. apply Hnone. by right.
Qed.

(** C7. The store is immutable: whatever object [d] is on the heap at [r]
    before an extraction, in particular the store at [self.dfs], is the same
    object after it, and after any number of extractions run by the event
    loop in any order; an extraction only adds the frame it works on. *)
Theorem C7_store_immutable (self : EICgen) (h : heap) (r : ref) (d : DataFrame) :
  h !! r = Some d ->
  (forall F, (get_feature_rows self F h).2 !! r = Some d)
  /\ (forall sched n pending out,
        (event_loop self sched n pending out h).2 !! r = Some d).
Proof.
  intros Hr. split.
  - intros F. eapply lookup_weaken; [exact Hr|apply get_feature_rows_frame].
  - intros sched n pending out.
    eapply lookup_weaken; [exact Hr|apply event_loop_frame].
Qed.

Section ScriptProperties.

Variable py_float : string -> option float.
Variable parse_mzXML : string -> filesystem -> result unit * filesystem.

(** ** The conversion scheduler *)

Lemma convert_loop_paths (listing todo mzCSV submitted : list string)
    (fs : filesystem) :
  (convert_loop parse_mzXML listing todo mzCSV submitted fs).1.1
  = mzCSV ++ (csv_path <$> todo).
Proof.
  revert mzCSV submitted fs.
  induction todo as [|f todo IH]; intros mzCSV submitted fs; simpl.
  - by rewrite app_nil_r.
  - destruct (bool_decide _); rewrite IH, <- app_assoc; reflexivity.
Qed.

Lemma convert_loop_submitted (listing todo mzCSV submitted : list string)
    (fs : filesystem) :
  (convert_loop parse_mzXML listing todo mzCSV submitted fs).1.2
  = submitted ++ List.filter (fun f => negb (bool_decide (csv_path f ∈ listing))) todo.
Proof.
  revert mzCSV submitted fs.
  induction todo as [|f todo IH]; intros mzCSV submitted fs; simpl.
  - by rewrite app_nil_r.
  - destruct (bool_decide _); simpl; rewrite IH; [done|].
    by rewrite <- app_assoc.
Qed.

(** The returned list is the expected path of every raw file, in order,
    whatever the converter did. *)
Lemma convert_all_paths (listing mzXML : list string) (fs : filesystem) :
  (convert_all_mzXML_to_CSV parse_mzXML listing mzXML fs).1.1 = csv_path <$> mzXML.
Proof. unfold convert_all_mzXML_to_CSV. by rewrite convert_loop_paths. Qed.

(** A file is handed to the executor exactly when its expected path is not
    in the listing. *)
Lemma convert_all_submitted (listing mzXML : list string) (fs : filesystem) :
  (convert_all_mzXML_to_CSV parse_mzXML listing mzXML fs).1.2
  = List.filter (fun f => negb (bool_decide (csv_path f ∈ listing))) mzXML.
Proof. unfold convert_all_mzXML_to_CSV. by rewrite convert_loop_submitted. Qed.

Lemma convert_loop_listed (listing todo mzCSV submitted : list string)
    (fs : filesystem) :
  (forall f, f ∈ todo -> csv_path f ∈ listing) ->
  (convert_loop parse_mzXML listing todo mzCSV submitted fs).1.2 = submitted
  /\ (convert_loop parse_mzXML listing todo mzCSV submitted fs).2 = fs.
Proof.
  revert mzCSV.
  induction todo as [|f todo IH]; intros mzCSV Hall; simpl; [done|].
  rewrite bool_decide_true by (apply Hall; by left).
  apply IH. intros g Hg. apply Hall. by right.
Qed.

(** Nothing is converted again once every expected path is listed: no file
    is handed to the executor and the files stay as they are. *)
Lemma convert_all_idempotent (listing mzXML : list string) (fs : filesystem) :
  (forall f, f ∈ mzXML -> csv_path f ∈ listing) ->
  convert_all_mzXML_to_CSV parse_mzXML listing mzXML fs
  = (csv_path <$> mzXML, [], fs).
Proof.
  intros Hall.
  pose proof (convert_all_paths listing mzXML fs) as Hp.
  unfold convert_all_mzXML_to_CSV in *.
  destruct (convert_loop_listed listing mzXML [] [] fs Hall) as [Hs Hf].
  destruct (convert_loop _ _ _ _ _ _) as [[p s'] f']. simpl in *. by subst.
Qed.

(** C3 (as amended). A failed conversion is not recorded: whatever the
    converter does, raising included, the scheduler returns the expected csv
    path of every raw file, so the path of a file whose conversion failed is
    in the list; and when no table is at that path after the conversions,
    reading the files raises [FileNotFoundError] and [__init__] ends with
    that exception, so that no [EICgen] object exists on which [run] could be
    called. *)
Theorem C3_failed_conversion_path_kept (kw : kwargs) (listing : list string)
    (fs : filesystem) (h : heap) (f : string) :
  f ∈ select_mzXML listing ->
  let sched := convert_all_mzXML_to_CSV parse_mzXML listing (select_mzXML listing) fs in
  sched.1.1 = csv_path <$> select_mzXML listing
  /\ csv_path f ∈ sched.1.1
  /\ (tables sched.2 !! csv_path f = None ->
      read_mzCSV_files sched.2 sched.1.1 h = (Raise FileNotFoundError, h)
      /\ (init parse_mzXML kw listing fs h).1.1 = Raise FileNotFoundError).
Proof.
  intros Hf sched.
  assert (Hpaths : sched.1.1 = csv_path <$> select_mzXML listing)
    by apply convert_all_paths.
  assert (Hin : csv_path f ∈ sched.1.1).
  { rewrite Hpaths. by apply list_elem_of_fmap_2. }
  split; [exact Hpaths|]. split; [exact Hin|].
  intros Hnone.
  pose proof (read_mzCSV_files_missing sched.2 sched.1.1 (csv_path f) h Hin Hnone)
    as Hread.
  split; [exact Hread|].
  unfold init. fold sched. destruct sched as [[csvs submitted] fs'].
  simpl in *. by rewrite Hread.
Qed.

(** ** Reading the features *)

Lemma py_index_raises {A} (l : list A) (i : Z) (e : exn) :
  py_index l i = Raise e -> e = IndexError.
Proof.
  unfold py_index. destruct (_ <? 0)%Z; [by intros [= <-]|].
  destruct (l !! _); [discriminate|by intros [= <-]].
Qed.

Lemma parse_feature_raises (self : EICgen) (row : list string) (e : exn) :
  parse_feature py_float self row = Raise e -> e = ValueError \/ e = IndexError.
Proof.
  unfold parse_feature.
  destruct (py_index row (mz_col self)) as [a|e1] eqn:Ha; simpl.
  2:{ intros [= <-]. right. by eapply py_index_raises. }
  destruct (py_float a); simpl; [|intros [= <-]; by left].
  destruct (py_index row (RT_col self)) as [b|e2] eqn:Hb; simpl.
  2:{ intros [= <-]. right. by eapply py_index_raises. }
  destruct (py_float b); simpl; [|intros [= <-]; by left].
  destruct (py_index row (feature_id_col self)) as [i|e3] eqn:Hi; simpl.
  2:{ intros [= <-]. right. by eapply py_index_raises. }
  discriminate.
Qed.

(** A row whose m/z or RT cell is not a number has no feature. *)
Lemma parse_feature_not_numeric (self : EICgen) (row : list string) :
  (exists s, py_index row (mz_col self) = Return s /\ py_float s = None)
  \/ (exists s, py_index row (RT_col self) = Return s /\ py_float s = None) ->
  exists e, parse_feature py_float self row = Raise e.
Proof.
  unfold parse_feature. intros [(s & Hs & Hf)|(s & Hs & Hf)].
  - rewrite Hs. simpl. rewrite Hf. simpl. eauto.
  - destruct (py_index row (mz_col self)) as [a|e1]; simpl; [|eauto].
    destruct (py_float a); simpl; [|eauto].
    rewrite Hs. simpl. rewrite Hf. simpl. eauto.
Qed.

Lemma rmap_raise_inv {A B} (f : A -> result B) (l : list A) (e : exn) :
  rmap f l = Raise e -> exists x, x ∈ l /\ f x = Raise e.
Proof.
  induction l as [|x l IH]; simpl; [discriminate|].
  destruct (f x) as [y|e'] eqn:Hx; simpl.
  - destruct (rmap f l) as [ys|e'']; simpl; [discriminate|].
    intros [= <-]. destruct (IH eq_refl) as (x' & Hin & Hx').
    exists x'. split; [by right|done].
  - intros [= <-]. exists x. split; [by left|done].
Qed.

(** ** The run *)

Lemma run_features_raise (self : EICgen) (sched : list nat) (fs : filesystem)
    (h : heap) (e : exn) :
  features py_float self fs = Raise e ->
  run py_float self sched fs h = ([header], Raise e, h).
Proof. intros He. unfold run. by rewrite He. Qed.

Lemma run_store (self : EICgen) (sched : list nat) (fs : filesystem)
    (h : heap) (recs : list ScanRecord) (fl : list Feature) :
  h !! dfs self = Some (store_of recs) ->
  features py_float self fs = Return fl ->
  exists order,
    order ≡ₚ fl
    /\ (run py_float self sched fs h).1.1
       = header :: (order ≫= feature_block self recs).
Proof.
  intros Hs Hfl. unfold run. rewrite Hfl.
  destruct fl as [|F fl]; [by exists []|].
  destruct (event_loop_store self recs (length (F :: fl)) sched (F :: fl)
              [header] h Hs eq_refl) as (order & h' & -> & Hp & _).
  exists order. done.
Qed.

(** C5 (as amended). A non-numeric m/z or RT cell ends the run with an
    exception ([ValueError], or [IndexError] when an earlier cell is
    missing), and the run ends after the header line was written and before
    any data line: the output file then holds the header line and nothing
    else. *)
Theorem C5_parse_failure_after_header (self : EICgen) (sched : list nat)
    (fs : filesystem) (h : heap) (hdr row : list string)
    (body : list (list string)) :
  texts fs !! path_join (mzXML_dir self) (target_file self) = Some (hdr :: body) ->
  row ∈ body ->
  (exists s, py_index row (mz_col self) = Return s /\ py_float s = None)
  \/ (exists s, py_index row (RT_col self) = Return s /\ py_float s = None) ->
  exists e, (e = ValueError \/ e = IndexError)
    /\ run py_float self sched fs h = ([header], Raise e, h).
Proof.
  intros Htext Hrow Hbad.
  destruct (parse_feature_not_numeric self row Hbad) as [e0 He0].
  destruct (rmap_raise (parse_feature py_float self) body row e0 Hrow He0)
    as [e He].
  exists e. split.
  - apply rmap_raise_inv in He as (row' & _ & He).
    by eapply parse_feature_raises.
  - apply run_features_raise. unfold features. by rewrite Htext.
Qed.

(** C8. Header and column order: whatever the schedule and however the run
    ends, the output starts with the line Feature, RT, Intensity, mz, File,
    Zoom, and every line after it is the feature id, the rt, the intensity,
    the mz and the file of a record of the store and a flag TRUE or FALSE,
    in this order, for one of the features of the target file. *)
Theorem C8_header_and_column_order (self : EICgen) (sched : list nat)
    (fs : filesystem) (h : heap) (recs : list ScanRecord) :
  h !! dfs self = Some (store_of recs) ->
  exists data,
    (run py_float self sched fs h).1.1
    = [CStr "Feature"; CStr "RT"; CStr "Intensity"; CStr "mz"; CStr "File";
       CStr "Zoom"] :: data
    /\ forall row, row ∈ data ->
         exists fl F r z,
           features py_float self fs = Return fl /\ F ∈ fl /\ r ∈ recs
           /\ (z = "TRUE" \/ z = "FALSE")
           /\ row = [CStr (feature_id F); CFloat (rec_rt r);
                     CFloat (rec_intensity r); CFloat (rec_mz r);
                     CStr (rec_file r); CStr z].
Proof.
  intros Hs.
  destruct (features py_float self fs) as [fl|e] eqn:Hfl.
  2:{ exists []. rewrite (run_features_raise self sched fs h e Hfl).
      split; [reflexivity|]. intros row Hrow. by apply elem_of_nil in Hrow. }
  destruct (run_store self sched fs h recs fl Hs Hfl) as (order & Hp & ->).
  eexists. split; [reflexivity|].
  intros row Hrow.
  apply list_elem_of_bind in Hrow as (F & Hrow & HF).
  unfold feature_block in Hrow.
  apply list_elem_of_fmap in Hrow as (r & -> & Hr).
  apply list_elem_of_In, filter_In in Hr as [Hr _].
  exists fl, F, r, (zoom_flag (in_zoom self F (rec_rt r))).
  split; [reflexivity|]. split; [by rewrite <- Hp|].
  split; [by apply list_elem_of_In|].
  split; [|reflexivity].
  unfold zoom_flag. destruct (in_zoom _ _ _); auto.
Qed.

(** C9. Row conservation and contiguity: when the features [fl] are read
    from the target file, the data lines of the output are, for some order
    of [fl] chosen by the schedule, the blocks of the features one after the
    other, each block being exactly what extraction of that feature returns
    on its own, in the order of the store; so the number of data lines is
    the sum over [fl] of the number of matches of each feature. *)
Theorem C9_row_conservation (self : EICgen) (sched : list nat)
    (fs : filesystem) (h : heap) (recs : list ScanRecord) (fl : list Feature) :
  h !! dfs self = Some (store_of recs) ->
  features py_float self fs = Return fl ->
  exists order data,
    order ≡ₚ fl
    /\ (run py_float self sched fs h).1.1 = header :: data
    /\ data = order ≫= feature_block self recs
    /\ (forall F, (get_feature_rows self F h).1 = Return (feature_block self recs F))
    /\ length data
       = sum_list_with (fun F => length (List.filter (in_window self F) recs)) fl.
Proof.
  intros Hs Hfl.
  destruct (run_store self sched fs h recs fl Hs Hfl) as (order & Hp & Hrun).
  exists order, (order ≫= feature_block self recs).
  split; [exact Hp|]. split; [exact Hrun|]. split; [reflexivity|]. split.
  - intros F. destruct (get_feature_rows_store self F recs h Hs) as (h' & -> & _).
    reflexivity.
  - rewrite length_list_bind, Hp.
    clear. induction fl as [|F fl IH]; [reflexivity|].
    simpl. unfold feature_block at 1. by rewrite length_fmap, IH.
Qed.

(** C10. Empty feature set: when the target file holds its header line and
    nothing else, the run ends with [ValueError] (raised by [asyncio.wait]
    on the empty list of tasks), not normally; the output file holds the
    header line. *)
Theorem C10_empty_feature_set_raises (self : EICgen) (sched : list nat)
    (fs : filesystem) (h : heap) (hdr : list string) :
  texts fs !! path_join (mzXML_dir self) (target_file self) = Some [hdr] ->
  features py_float self fs = Return []
  /\ run py_float self sched fs h = ([header], Raise ValueError, h).
Proof.
  intros Htext.
  assert (Hfl : features py_float self fs = Return []).
  { unfold features. by rewrite Htext. }
  split; [exact Hfl|]. unfold run. by rewrite Hfl.
Qed.

(** X1. A second run of the scheduler: when the listing of the second run
    holds the expected path of every raw file (every conversion of the first
    run left its file there), the second run hands nothing to the executor,
    leaves the files as they are and returns the list of the first run. *)
Theorem X1_second_run_dispatches_nothing (listing listing' mzXML : list string)
    (fs : filesystem) :
  (forall f, f ∈ mzXML -> csv_path f ∈ listing') ->
  convert_all_mzXML_to_CSV parse_mzXML listing' mzXML
    (convert_all_mzXML_to_CSV parse_mzXML listing mzXML fs).2
  = ((convert_all_mzXML_to_CSV parse_mzXML listing mzXML fs).1.1, [],
     (convert_all_mzXML_to_CSV parse_mzXML listing mzXML fs).2).
Proof.
  intros Hall. rewrite convert_all_idempotent by exact Hall.
  by rewrite convert_all_paths.
Qed.

(** X2. A file is handed to the executor exactly when its expected path is
    not in the listing taken at the start, and its expected path is returned
    either way. *)
Theorem X2_dispatch_iff_not_listed (listing mzXML : list string)
    (fs : filesystem) (f : string) :
  (f ∈ (convert_all_mzXML_to_CSV parse_mzXML listing mzXML fs).1.2
   <-> f ∈ mzXML /\ csv_path f ∉ listing)
  /\ (f ∈ mzXML ->
      csv_path f ∈ (convert_all_mzXML_to_CSV parse_mzXML listing mzXML fs).1.1).
Proof.
  split.
  - rewrite convert_all_submitted, list_elem_of_In, filter_In, <- list_elem_of_In.
    rewrite negb_true_iff, bool_decide_eq_false. reflexivity.
  - intros Hf. rewrite convert_all_paths. by apply list_elem_of_fmap_2.
Qed.


(** X5. The header comes first in every run: whatever is on the heap,
    whatever the schedule and however the run ends, the output starts with
    the header line. *)
Theorem X5_header_first_in_every_run (self : EICgen) (sched : list nat)
    (fs : filesystem) (h : heap) :
  exists data, (run py_float self sched fs h).1.1 = header :: data.
Proof.
  unfold run. destruct (features py_float self fs) as [[|F fl]|e];
    [by exists []| |by exists []].
  destruct (event_loop_appends self (length (F :: fl)) sched (F :: fl)
              [header] h) as [data Hdata].
  exists data. destruct (event_loop _ _ _ _ _ _) as [out h']. exact Hdata.
Qed.

End ScriptProperties.

(** ** The claims on the sample inputs *)

Lemma C1_tolerance_filter_witness :
  sample_heap !! dfs (sample_self "t.csv") = Some (store_of sample_records)
  /\ record_edge ∈ sample_records
  /\ exists rws h',
       get_feature_rows (sample_self "t.csv") sample_feature sample_heap
       = (Return rws, h')
       /\ emitted_row (sample_self "t.csv") sample_feature record_edge ∉ rws.
Proof.
  split; [reflexivity|]. split; [by right; left|].
  destruct (C1_tolerance_filter (sample_self "t.csv") sample_feature
              sample_records sample_heap record_edge)
    as (rws & h' & Hrun & _ & Hupper & _).
  - reflexivity.
  - by right; left.
  - exists rws, h'. split; [exact Hrun|]. apply Hupper. reflexivity.
Defined.

Lemma C2_zoom_tagging_witness :
  sample_heap !! dfs (sample_self "t.csv") = Some (store_of sample_records)
  /\ exists rws h',
       get_feature_rows (sample_self "t.csv") sample_feature sample_heap
       = (Return rws, h')
       /\ forall row, row ∈ rws ->
            exists r, r ∈ sample_records
              /\ row = [CStr "f1"; CFloat (rec_rt r); CFloat (rec_intensity r);
                        CFloat (rec_mz r); CStr (rec_file r);
                        CStr (if ((50 - 30 <? rec_rt r)
                                  && (rec_rt r <? 50 + 30))%float
                              then "TRUE" else "FALSE")].
Proof.
  split; [reflexivity|].
  apply (C2_zoom_tagging (sample_self "t.csv") sample_feature sample_records
           sample_heap).
  reflexivity.
Defined.

Example sample_extraction :
  (get_feature_rows (sample_self "t.csv") sample_feature sample_heap).1
  = Return [ [CStr "f1"; CFloat 50; CFloat 7; CFloat 100; CStr "a.csv"; CStr "TRUE"];
             [CStr "f1"; CFloat 80; CFloat 9; CFloat 100.25; CStr "a.csv"; CStr "FALSE"] ].
Proof. vm_compute. reflexivity. Qed.

Lemma C6_no_match_no_error_witness :
  sample_heap !! dfs (sample_self "t.csv") = Some (store_of sample_records)
  /\ (forall r, r ∈ sample_records ->
        ~ ((200 - 0.5 <? rec_mz r)%float = true
           /\ (rec_mz r <? 200 + 0.5)%float = true))
  /\ exists h',
       get_feature_rows (sample_self "t.csv") unmatched_feature sample_heap
       = (Return [], h').
Proof.
  assert (Hnone : forall r, r ∈ sample_records ->
             ~ ((200 - 0.5 <? rec_mz r)%float = true
                /\ (rec_mz r <? 200 + 0.5)%float = true)).
  { intros r Hr [Hlo _]. revert Hlo.
    repeat (apply elem_of_cons in Hr as [->|Hr]; [vm_compute; discriminate|]).
    by apply elem_of_nil in Hr. }
  split; [reflexivity|]. split; [exact Hnone|].
  apply (C6_no_match_no_error (sample_self "t.csv") unmatched_feature
           sample_records sample_heap); [reflexivity|exact Hnone].
Defined.

Lemma C7_store_immutable_witness :
  sample_heap !! 0 = Some (store_of sample_records)
  /\ (get_feature_rows (sample_self "t.csv") sample_feature sample_heap).2 !! 0
     = Some (store_of sample_records)
  /\ (event_loop (sample_self "t.csv") [1] 2 [sample_feature; unmatched_feature]
        [header] sample_heap).2 !! 0
     = Some (store_of sample_records).
Proof.
  split; [reflexivity|].
  destruct (C7_store_immutable (sample_self "t.csv") sample_heap 0
              (store_of sample_records) eq_refl) as [Hone Hloop].
  split; [apply Hone|apply Hloop].
Defined.

(** C3, as the claim states it, fails: the converter raises on the only raw
    file, the file was handed to the executor, and still its path is in the
    list that the scheduler returns; [__init__] then ends with
    [FileNotFoundError]. *)
Lemma C3_failed_conversion_counterexample :
  (failing_converter "/data/b.mzXML" sample_fs).1 = Raise ConverterError
  /\ convert_all_mzXML_to_CSV failing_converter raw_listing
       (select_mzXML raw_listing) sample_fs
     = (["/data/b.csv"], ["/data/b.mzXML"], sample_fs)
  /\ csv_path "/data/b.mzXML"
     ∈ (convert_all_mzXML_to_CSV failing_converter raw_listing
          (select_mzXML raw_listing) sample_fs).1.1
  /\ (init failing_converter sample_kwargs raw_listing sample_fs ∅).1.1
     = Raise FileNotFoundError.
Proof.
  split; [reflexivity|]. split; [reflexivity|]. split; [by left|].
  reflexivity.
Defined.

Lemma C3_failed_conversion_path_kept_witness :
  "/data/b.mzXML" ∈ select_mzXML raw_listing
  /\ csv_path "/data/b.mzXML"
     ∈ (convert_all_mzXML_to_CSV failing_converter raw_listing
          (select_mzXML raw_listing) sample_fs).1.1
  /\ (init failing_converter sample_kwargs raw_listing sample_fs ∅).1.1
     = Raise FileNotFoundError.
Proof.
  assert (Hin : "/data/b.mzXML" ∈ select_mzXML raw_listing) by (by left).
  split; [exact Hin|].
  destruct (C3_failed_conversion_path_kept failing_converter sample_kwargs
              raw_listing sample_fs ∅ "/data/b.mzXML" Hin)
    as (_ & Hpath & Hread).
  split; [exact Hpath|]. apply Hread. reflexivity.
Defined.

(** C4 on a directory whose path has a dot: the expected path is the text
    before the first dot of the whole path, not the stem of the file; two
    raw files share it; and the converted file of the same stem, when it is
    in the listing, does not stop the conversion from being dispatched. *)
Theorem C4_expected_path_cut_at_first_dot :
  csv_path dotted_raw = "/home/u/LipidMatch_Flow_3.csv"
  /\ same_stem_csv dotted_raw = "/home/u/LipidMatch_Flow_3.5/data/a.csv"
  /\ csv_path "/data/run.1.mzXML" = "/data/run.csv"
  /\ same_stem_csv "/data/run.1.mzXML" = "/data/run.1.csv"
  /\ (convert_all_mzXML_to_CSV failing_converter dotted_listing
        (select_mzXML dotted_listing) sample_fs).1
     = (["/home/u/LipidMatch_Flow_3.csv"; "/home/u/LipidMatch_Flow_3.csv"],
        dotted_listing)
  /\ same_stem_csv dotted_raw ∈ dotted_listing_converted
  /\ (convert_all_mzXML_to_CSV failing_converter dotted_listing_converted
        (select_mzXML dotted_listing_converted) sample_fs).1
     = (["/home/u/LipidMatch_Flow_3.csv"], [dotted_raw]).
Proof.
  split; [reflexivity|]. split; [reflexivity|]. split; [reflexivity|].
  split; [reflexivity|]. split; [reflexivity|].
  split; [by right; left|]. reflexivity.
Qed.

(** C5, as the claim states it, fails: the m/z cell [abc] ends the run with
    [ValueError], and the output file then holds the header line. *)
Lemma C5_header_written_counterexample :
  features float_of_digits (sample_self "bad.csv") sample_fs = Raise ValueError
  /\ run float_of_digits (sample_self "bad.csv") [] sample_fs sample_heap
     = ([header], Raise ValueError, sample_heap)
  /\ (run float_of_digits (sample_self "bad.csv") [] sample_fs sample_heap).1.1
     <> [].
Proof.
  split; [reflexivity|]. split; [reflexivity|]. discriminate.
Defined.

Lemma C5_parse_failure_after_header_witness :
  texts sample_fs !! path_join "/data" "bad.csv"
  = Some [ ["id"; "mz"; "rt"]; ["f1"; "abc"; "50"] ]
  /\ py_index ["f1"; "abc"; "50"] 1 = Return "abc"
  /\ float_of_digits "abc" = None
  /\ exists e, (e = ValueError \/ e = IndexError)
       /\ run float_of_digits (sample_self "bad.csv") [] sample_fs sample_heap
          = ([header], Raise e, sample_heap).
Proof.
  split; [reflexivity|]. split; [reflexivity|]. split; [reflexivity|].
  apply (C5_parse_failure_after_header float_of_digits (sample_self "bad.csv")
           [] sample_fs sample_heap ["id"; "mz"; "rt"] ["f1"; "abc"; "50"]
           [ ["f1"; "abc"; "50"] ]).
  - reflexivity.
  - by left.
  - left. exists "abc". split; reflexivity.
Defined.

Lemma C8_header_and_column_order_witness :
  sample_heap !! dfs (sample_self "t.csv") = Some (store_of sample_records)
  /\ exists data,
       (run float_of_digits (sample_self "t.csv") [2] sample_fs sample_heap).1.1
       = [CStr "Feature"; CStr "RT"; CStr "Intensity"; CStr "mz"; CStr "File";
          CStr "Zoom"] :: data
       /\ forall row, row ∈ data ->
            exists fl F r z,
              features float_of_digits (sample_self "t.csv") sample_fs = Return fl
              /\ F ∈ fl /\ r ∈ sample_records
              /\ (z = "TRUE" \/ z = "FALSE")
              /\ row = [CStr (feature_id F); CFloat (rec_rt r);
                        CFloat (rec_intensity r); CFloat (rec_mz r);
                        CStr (rec_file r); CStr z].
Proof.
  split; [reflexivity|].
  apply (C8_header_and_column_order float_of_digits (sample_self "t.csv") [2]
           sample_fs sample_heap sample_records).
  reflexivity.
Defined.

Lemma C9_row_conservation_witness :
  sample_heap !! dfs (sample_self "t.csv") = Some (store_of sample_records)
  /\ features float_of_digits (sample_self "t.csv") sample_fs
     = Return [ sample_feature; unmatched_feature;
                {| mz := 100; RT := 120; feature_id := "f3" |} ]
  /\ exists data,
       (run float_of_digits (sample_self "t.csv") [2] sample_fs sample_heap).1.1
       = header :: data
       /\ length data = 4.
Proof.
  split; [reflexivity|]. split; [reflexivity|].
  destruct (C9_row_conservation float_of_digits (sample_self "t.csv") [2]
              sample_fs sample_heap sample_records
              [ sample_feature; unmatched_feature;
                {| mz := 100; RT := 120; feature_id := "f3" |} ]
              eq_refl eq_refl)
    as (order & data & _ & Hrun & _ & _ & Hlen).
  exists data. split; [exact Hrun|]. rewrite Hlen. reflexivity.
Defined.

(** The order of the blocks depends on the schedule. *)
Example block_order_follows_schedule :
  (run float_of_digits (sample_self "t.csv") [0] sample_fs sample_heap).1.1
  = [ header;
      [CStr "f1"; CFloat 50; CFloat 7; CFloat 100; CStr "a.csv"; CStr "TRUE"];
      [CStr "f1"; CFloat 80; CFloat 9; CFloat 100.25; CStr "a.csv"; CStr "FALSE"];
      [CStr "f3"; CFloat 50; CFloat 7; CFloat 100; CStr "a.csv"; CStr "FALSE"];
      [CStr "f3"; CFloat 80; CFloat 9; CFloat 100.25; CStr "a.csv"; CStr "FALSE"] ]
  /\ (run float_of_digits (sample_self "t.csv") [2] sample_fs sample_heap).1.1
     = [ header;
         [CStr "f3"; CFloat 50; CFloat 7; CFloat 100; CStr "a.csv"; CStr "FALSE"];
         [CStr "f3"; CFloat 80; CFloat 9; CFloat 100.25; CStr "a.csv"; CStr "FALSE"];
         [CStr "f1"; CFloat 50; CFloat 7; CFloat 100; CStr "a.csv"; CStr "TRUE"];
         [CStr "f1"; CFloat 80; CFloat 9; CFloat 100.25; CStr "a.csv"; CStr "FALSE"] ].
Proof. split; vm_compute; reflexivity. Qed.

Lemma C10_empty_feature_set_raises_witness :
  texts sample_fs !! path_join "/data" "empty.csv" = Some [ ["id"; "mz"; "rt"] ]
  /\ features float_of_digits (sample_self "empty.csv") sample_fs = Return []
  /\ run float_of_digits (sample_self "empty.csv") [] sample_fs sample_heap
     = ([header], Raise ValueError, sample_heap).
Proof.
  split; [reflexivity|].
  apply (C10_empty_feature_set_raises float_of_digits (sample_self "empty.csv")
           [] sample_fs sample_heap ["id"; "mz"; "rt"]).
  reflexivity.
Defined.

Lemma X1_second_run_dispatches_nothing_witness :
  (forall f, f ∈ ["/data/b.mzXML"] -> csv_path f ∈ ["/data/b.mzXML"; "/data/b.csv"])
  /\ convert_all_mzXML_to_CSV writing_converter raw_listing
       (select_mzXML raw_listing) sample_fs
     = (["/data/b.csv"], ["/data/b.mzXML"], write_table "/data/b.csv" [] sample_fs)
  /\ convert_all_mzXML_to_CSV writing_converter ["/data/b.mzXML"; "/data/b.csv"]
       ["/data/b.mzXML"]
       (convert_all_mzXML_to_CSV writing_converter raw_listing ["/data/b.mzXML"]
          sample_fs).2
     = (["/data/b.csv"], [], write_table "/data/b.csv" [] sample_fs).
Proof.
  assert (Hall : forall f, f ∈ ["/data/b.mzXML"] ->
                   csv_path f ∈ ["/data/b.mzXML"; "/data/b.csv"]).
  { intros f Hf. apply list_elem_of_singleton in Hf as ->. by right; left. }
  split; [exact Hall|]. split; [reflexivity|].
  exact (X1_second_run_dispatches_nothing writing_converter raw_listing
           ["/data/b.mzXML"; "/data/b.csv"] ["/data/b.mzXML"] sample_fs Hall).
Defined.

(** X3. For a path with exactly one dot the expected path is the path of the
    same stem with the csv extension. *)
Theorem X3_single_dot_same_stem (p a b : string) :
  str_split "." p = [a; b] -> csv_path p = same_stem_csv p.
Proof.
  intros Hp. unfold csv_path, same_stem_csv, split_first. rewrite Hp.
  reflexivity.
Qed.

Lemma X3_single_dot_same_stem_witness :
  str_split "." "/data/a.mzXML" = ["/data/a"; "mzXML"]
  /\ csv_path "/data/a.mzXML" = same_stem_csv "/data/a.mzXML".
Proof.
  split; [reflexivity|].
  exact (X3_single_dot_same_stem "/data/a.mzXML" "/data/a" "mzXML" eq_refl).
Defined.

(** X4. The store: when every file of the list can be read, the frame that
    [read_mzCSV_files] puts on the heap holds the scan records of these
    files, file after file and line after line, each with the basename of
    its file; objects that were on the heap before stay as they are. *)
Theorem X4_store_holds_the_records (fs : filesystem) (files : list string)
    (h : heap) :
  files <> [] ->
  (forall p, p ∈ files -> is_Some (tables fs !! p)) ->
  exists r h',
    read_mzCSV_files fs files h = (Return r, h')
    /\ h' !! r = Some (store_of (records_of_files fs files))
    /\ h ⊆ h'.
Proof. apply read_mzCSV_files_store. Qed.

Lemma X4_store_holds_the_records_witness :
  records_of_files sample_fs ["/data/a.csv"] = sample_records
  /\ exists r h',
       read_mzCSV_files sample_fs ["/data/a.csv"] ∅ = (Return r, h')
       /\ h' !! r = Some (store_of (records_of_files sample_fs ["/data/a.csv"]))
       /\ ∅ ⊆ h'.
Proof.
  split; [reflexivity|].
  apply (X4_store_holds_the_records sample_fs ["/data/a.csv"] ∅).
  - discriminate.
  - intros p Hp. apply list_elem_of_singleton in Hp as ->. by eexists.
Defined.

(** ** Splitting paths *)

Lemma py_index_last {A} (l : list A) :
  py_index l (-1) = match last l with
                    | Some x => Return x
                    | None => Raise IndexError
                    end.
Proof.
  unfold py_index. rewrite last_lookup.
  destruct l as [|x l]; [reflexivity|].
  change (-1 <? 0)%Z with true. cbv iota.
  replace (-1 + Z.of_nat (length (x :: l)))%Z with (Z.of_nat (length l))
    by (simpl; lia).
  destruct (Z.ltb_spec (Z.of_nat (length l)) 0) as [Hneg|_]; [lia|].
  rewrite Nat2Z.id. reflexivity.
Qed.

Lemma split_last_last (sep : ascii) (s : string) :
  last (str_split sep s) = Some (split_last sep s).
Proof.
  unfold split_last. rewrite py_index_last.
  destruct (last (str_split sep s)) as [w|] eqn:Hl; [reflexivity|].
  apply last_None in Hl. by apply str_split_nonempty in Hl.
Qed.

Lemma str_split_app (sep : ascii) (a b : string) :
  str_split sep (a +:+ String sep b) = str_split sep a ++ str_split sep b.
Proof.
  induction a as [|c a IH]; simpl.
  - by rewrite Ascii.eqb_refl.
  - destruct (Ascii.eqb c sep); [by rewrite IH|].
    rewrite IH. pose proof (str_split_nonempty sep a) as Hne.
    destruct (str_split sep a); [done|reflexivity].
Qed.

(** [sep.join(s.split(sep))] is [s]. *)
Lemma str_split_join (sep : ascii) (s : string) :
  String.concat (String sep "") (str_split sep s) = s.
Proof.
  induction s as [|c s IH]; [reflexivity|]. simpl.
  pose proof (str_split_nonempty sep s) as Hne.
  destruct (Ascii.eqb_spec c sep) as [->|Hc].
  - simpl. destruct (str_split sep s) as [|w ws]; [done|].
    simpl in *. by rewrite IH.
  - destruct (str_split sep s) as [|w ws]; [done|].
    simpl in *. destruct ws; simpl in *; by rewrite <- IH.
Qed.

Lemma string_app_assoc (a b c : string) :
  (a +:+ b) +:+ c = a +:+ (b +:+ c).
Proof.
  induction a as [|x a IH]; [reflexivity|].
  change (String x ((a +:+ b) +:+ c) = String x (a +:+ (b +:+ c))).
  by rewrite IH.
Qed.

Lemma concat_snoc (sep : string) (ws : list string) (w : string) :
  ws <> [] ->
  String.concat sep (ws ++ [w]) = String.concat sep ws +:+ sep +:+ w.
Proof.
  induction ws as [|x ws IH]; [done|]. intros _.
  destruct ws as [|y ws].
  - simpl. reflexivity.
  - change (String.concat sep ((x :: y :: ws) ++ [w]))
      with (x +:+ sep +:+ String.concat sep ((y :: ws) ++ [w])).
    rewrite IH by done.
    change (String.concat sep (x :: y :: ws))
      with (x +:+ sep +:+ String.concat sep (y :: ws)).
    by rewrite !string_app_assoc.
Qed.

(** The text after the last separator of [s] is [w] exactly when [s] is [w]
    without separator before it, or ends with the separator followed by
    [w]. *)
Lemma split_last_suffix (sep : ascii) (s w : string) :
  split_last sep s = w ->
  s = w \/ exists p, s = p +:+ String sep w.
Proof.
  intros Hw. pose proof (split_last_last sep s) as Hl. rewrite Hw in Hl.
  apply last_Some in Hl as [ws Hws].
  pose proof (str_split_join sep s) as Hj. rewrite Hws in Hj.
  destruct ws as [|x ws]; [left; by rewrite <- Hj|].
  right. exists (String.concat (String sep "") (x :: ws)).
  rewrite <- Hj. by rewrite concat_snoc.
Qed.

Lemma split_last_app (sep : ascii) (a b : string) :
  split_last sep (a +:+ String sep b) = split_last sep b.
Proof.
  pose proof (split_last_last sep (a +:+ String sep b)) as Hl.
  rewrite str_split_app in Hl.
  pose proof (split_last_last sep b) as Hb.
  apply last_Some in Hb as [ws Hws]. rewrite Hws, app_assoc, last_snoc in Hl.
  by injection Hl.
Qed.

Lemma str_split_no_sep (sep : ascii) (s : string) :
  ~ In sep (list_ascii_of_string s) -> str_split sep s = [s].
Proof.
  induction s as [|c s IH]; [reflexivity|]. simpl. intros Hno.
  destruct (Ascii.eqb_spec c sep) as [->|_]; [destruct Hno; by left|].
  rewrite IH by (intros Hin; apply Hno; by right). reflexivity.
Qed.

(** X6. Raw files are chosen by the text after the last dot, with case: a
    path of the listing is taken as a raw scan file exactly when it ends in
    [.mzXML] or is the bare text [mzXML]. *)
Theorem X6_raw_files_end_in_mzXML (files : list string) (f : string) :
  f ∈ select_mzXML files
  <-> f ∈ files /\ (f = "mzXML" \/ exists p, f = p +:+ ".mzXML").
Proof.
  unfold select_mzXML.
  rewrite list_elem_of_In, filter_In, <- list_elem_of_In, String.eqb_eq.
  split; intros [Hin Hf]; (split; [exact Hin|]).
  - apply split_last_suffix in Hf as [->|[p ->]]; eauto.
  - destruct Hf as [->|[p ->]]; [reflexivity|].
    change (p +:+ ".mzXML") with (p +:+ String "." "mzXML").
    by rewrite split_last_app.
Qed.

(** X7. The [File] column holds the name without its directory: reading
    the converted file [d/name], where [name] has no slash, gives the
    records of its table, each tagged with [name]. *)
Theorem X7_file_column_is_the_basename (fs : filesystem) (d name : string)
    (t : list ScanRow) :
  ~ In "/"%char (list_ascii_of_string name) ->
  tables fs !! (d +:+ "/" +:+ name) = Some t ->
  read_csv fs (d +:+ "/" +:+ name)
  = Return (store_of ((fun s : ScanRow =>
                         {| rec_mz := row_mz s; rec_rt := row_rt s;
                            rec_intensity := row_intensity s;
                            rec_file := name |}) <$> t)).
Proof.
  intros Hname Ht. rewrite (read_csv_store fs _ t Ht).
  unfold records_of_table, basename.
  change (d +:+ "/" +:+ name) with (d +:+ String "/" name).
  rewrite split_last_app.
  pose proof (split_last_last "/" name) as Hl.
  rewrite (str_split_no_sep "/" name Hname) in Hl.
  injection Hl as <-. reflexivity.
Qed.

(** ** Indexing a row *)



Lemma rmap_length {A B} (f : A -> result B) (l : list A) (ys : list B) :
  rmap f l = Return ys -> length ys = length l.
Proof.
  revert ys. induction l as [|x l IH]; intros ys; simpl.
  - by intros [= <-].
  - destruct (f x); simpl; [|discriminate].
    destruct (rmap f l) as [ys'|]; simpl; [|discriminate].
    intros [= <-]. simpl. f_equal. by apply IH.
Qed.

Section FeatureProperties.

Variable py_float : string -> option float.


(** X9. The first line of the target file is skipped whatever it holds:
    two files that differ in their first line only give the same features
    or the same exception, and when the features are read there is one for
    every line after the first. *)
Theorem X9_header_line_is_skipped (self : EICgen) (fs fs' : filesystem)
    (hdr hdr' : list string) (body : list (list string)) :
  texts fs !! path_join (mzXML_dir self) (target_file self) = Some (hdr :: body) ->
  texts fs' !! path_join (mzXML_dir self) (target_file self) = Some (hdr' :: body) ->
  features py_float self fs = features py_float self fs'
  /\ forall fl, features py_float self fs = Return fl -> length fl = length body.
Proof.
  intros Hfs Hfs'. unfold features. rewrite Hfs, Hfs'.
  split; [reflexivity|]. apply rmap_length.
Qed.

(** X10. A target file that is missing or has no line at all: the run ends
    with [FileNotFoundError], respectively [RuntimeError] (the
    [StopIteration] of [next(reader)] inside the generator), and in both
    cases the output file was already opened and holds the header line. *)
Theorem X10_target_file_missing_or_empty (self : EICgen) (sched : list nat)
    (fs : filesystem) (h : heap) :
  (texts fs !! path_join (mzXML_dir self) (target_file self) = None ->
   run py_float self sched fs h = ([header], Raise FileNotFoundError, h))
  /\ (texts fs !! path_join (mzXML_dir self) (target_file self) = Some [] ->
      run py_float self sched fs h = ([header], Raise RuntimeError, h)).
Proof.
  split; intros Ht; apply run_features_raise; unfold features; by rewrite Ht.
Qed.

End FeatureProperties.

(** ** Not-a-number in comparisons *)

Lemma is_nan_spec (x : float) : is_nan x = true -> Prim2SF x = S754_nan.
Proof.
  unfold is_nan. rewrite FloatAxioms.eqb_spec. unfold SFeqb, SFcompare.
  destruct (Prim2SF x) as [s|s| |s m e]; try (destruct s; discriminate);
    try reflexivity.
  rewrite Z.compare_refl.
  change (PosDef.Pos.compare_cont Eq m m) with (Pos.compare m m).
  rewrite Pos.compare_refl. destruct s; discriminate.
Qed.

Lemma float_ltb_nan_r (x y : float) : Prim2SF y = S754_nan -> (x <? y)%float = false.
Proof.
  intros Hy. rewrite ltb_spec, Hy. unfold SFltb, SFcompare.
  destruct (Prim2SF x); reflexivity.
Qed.

Lemma float_ltb_nan_l (x y : float) : Prim2SF x = S754_nan -> (x <? y)%float = false.
Proof. intros Hx. rewrite ltb_spec, Hx. reflexivity. Qed.

Lemma float_add_nan (x y : float) :
  Prim2SF x = S754_nan \/ Prim2SF y = S754_nan -> Prim2SF (x + y) = S754_nan.
Proof.
  rewrite add_spec. unfold SF64add, SFadd. intros [->| ->]; [reflexivity|].
  destruct (Prim2SF x); reflexivity.
Qed.

Lemma float_sub_nan (x y : float) :
  Prim2SF x = S754_nan \/ Prim2SF y = S754_nan -> Prim2SF (x - y) = S754_nan.
Proof.
  rewrite sub_spec. unfold SF64sub, SFsub. intros [->| ->]; [reflexivity|].
  destruct (Prim2SF x); reflexivity.
Qed.

Lemma filter_none {A} (p : A -> bool) (l : list A) :
  (forall x, x ∈ l -> p x = false) -> List.filter p l = [].
Proof.
  induction l as [|x l IH]; intros Hall; [reflexivity|]. simpl.
  rewrite (Hall x) by (by left). apply IH. intros y Hy. apply Hall. by right.
Qed.

(** X11. Not-a-number never matches: a record whose m/z is NaN (an empty
    cell of a converted file) is in the rows of no feature, and a feature
    whose m/z is NaN, or a NaN tolerance, gives no row at all; neither
    raises. *)
Theorem X11_nan_never_matches (self : EICgen) (F : Feature)
    (recs : list ScanRecord) (h : heap) :
  h !! dfs self = Some (store_of recs) ->
  exists rws h',
    get_feature_rows self F h = (Return rws, h')
    /\ (forall r, r ∈ recs -> is_nan (rec_mz r) = true ->
          emitted_row self F r ∉ rws)
    /\ (is_nan (mz F) = true \/ is_nan (tolerance self) = true -> rws = []).
Proof.
  intros Hs.
  destruct (get_feature_rows_store self F recs h Hs) as (h' & Hrun & _).
  exists (feature_block self recs F), h'. split; [exact Hrun|]. split.
  - intros r Hr Hnan. rewrite (feature_block_elem self F recs r Hr).
    unfold in_window.
    rewrite (float_ltb_nan_l (rec_mz r)) by (by apply is_nan_spec). done.
  - intros Hnan. unfold feature_block. rewrite filter_none; [reflexivity|].
    intros r _. unfold in_window.
    rewrite (float_ltb_nan_r (rec_mz r)); [reflexivity|].
    apply float_add_nan. destruct Hnan as [Hn|Hn]; [left|right];
      by apply is_nan_spec.
Qed.

(** ** Extractions that raise *)

Lemma get_feature_rows_no_mz (self : EICgen) (F : Feature) (h : heap)
    (d : DataFrame) :
  h !! dfs self = Some d -> "mz" ∉ columns d ->
  get_feature_rows self F h = (Raise AttributeError, h).
Proof.
  intros Hd Hmz. unfold get_feature_rows.
  rewrite (bind_Return _ _ h h d) by (by apply load_Some).
  apply bind_Raise. unfold lift, getattr_column, has_column.
  by rewrite bool_decide_false.
Qed.

Lemma event_loop_all_raise (self : EICgen) (h : heap) (e : exn) (n : nat) :
  (forall F, get_feature_rows self F h = (Raise e, h)) ->
  forall sched pending out,
    event_loop self sched n pending out h = (out, h).
Proof.
  intros Hall. induction n as [|n IH]; intros sched pending out; simpl;
    [reflexivity|].
  destruct (pending !! _); [|reflexivity]. rewrite Hall. apply IH.
Qed.

Section RunProperties.

Variable py_float : string -> option float.
Variable parse_mzXML : string -> filesystem -> result unit * filesystem.

(** X12. Failed extractions are silent: when the store has no [mz] column,
    extraction of every feature raises [AttributeError], and still the run
    ends normally, with the header line as its whole output; the exception
    of a task is never raised by [asyncio.wait]. *)
Theorem X12_failed_extractions_are_silent (self : EICgen) (sched : list nat)
    (fs : filesystem) (h : heap) (d : DataFrame) (F : Feature)
    (fl : list Feature) :
  h !! dfs self = Some d ->
  "mz" ∉ columns d ->
  features py_float self fs = Return (F :: fl) ->
  get_feature_rows self F h = (Raise AttributeError, h)
  /\ run py_float self sched fs h = ([header], Return tt, h).
Proof.
  intros Hd Hmz Hfl. split; [by eapply get_feature_rows_no_mz|].
  unfold run. rewrite Hfl.
  rewrite (event_loop_all_raise self h AttributeError); [reflexivity|].
  intros F'. by eapply get_feature_rows_no_mz.
Qed.

(** X13. A directory without raw scan file: [__init__] ends with
    [ValueError] ([pandas.concat] of no frame), whatever converted files the
    directory holds; nothing is converted, no object is made, and the
    script ends without opening an output file. *)
Theorem X13_no_raw_file_no_store (kw : kwargs) (listing : list string)
    (fs : filesystem) (sched : list nat) (h : heap) :
  select_mzXML listing = [] ->
  init parse_mzXML kw listing fs h = (Raise ValueError, fs, h)
  /\ main py_float parse_mzXML kw listing fs sched h = (None, Raise ValueError).
Proof.
  intros Hnone.
  assert (Hinit : init parse_mzXML kw listing fs h = (Raise ValueError, fs, h)).
  { unfold init. rewrite Hnone. reflexivity. }
  split; [exact Hinit|]. unfold main. by rewrite Hinit.
Qed.

(** X14. A conversion that leaves no file ends the script before any
    output: when no table is at the expected path of a raw file after the
    conversions, the script ends with [FileNotFoundError] and the output
    file is never opened. *)
Theorem X14_missing_table_no_output (kw : kwargs) (listing : list string)
    (fs : filesystem) (sched : list nat) (h : heap) (f : string) :
  f ∈ select_mzXML listing ->
  tables (convert_all_mzXML_to_CSV parse_mzXML listing (select_mzXML listing) fs).2
    !! csv_path f = None ->
  main py_float parse_mzXML kw listing fs sched h = (None, Raise FileNotFoundError).
Proof.
  intros Hf Hnone. unfold main, init.
  pose proof (convert_all_paths parse_mzXML listing (select_mzXML listing) fs)
    as Hpaths.
  destruct (convert_all_mzXML_to_CSV _ _ _ _) as [[csvs submitted] fs'].
  simpl in *. subst csvs.
  rewrite (read_mzCSV_files_missing fs' _ (csv_path f) h); [reflexivity| |done].
  by apply list_elem_of_fmap_2.
Qed.

(** X15. The whole script: when the directory has a raw file, every
    expected csv file can be read after the conversions and the target file
    gives at least one feature, the script ends normally and its output is
    the header line followed by the blocks of the features, in some order
    of the features, each block holding the matching records of all
    converted files in the order of the files and of their lines. *)
Theorem X15_script_end_to_end (kw : kwargs) (listing : list string)
    (fs : filesystem) (sched : list nat) (h : heap) :
  let conv := convert_all_mzXML_to_CSV parse_mzXML listing (select_mzXML listing) fs in
  select_mzXML listing <> [] ->
  (forall p, p ∈ conv.1.1 -> is_Some (tables conv.2 !! p)) ->
  exists self h',
    init parse_mzXML kw listing fs h = (Return self, conv.2, h')
    /\ tolerance self = kw_mz_tolerance kw
    /\ zoom_window self = kw_zoom_window kw
    /\ forall F fl,
         features py_float self conv.2 = Return (F :: fl) ->
         exists order,
           order ≡ₚ F :: fl
           /\ main py_float parse_mzXML kw listing fs sched h
              = (Some (header :: (order ≫= feature_block self
                                    (records_of_files conv.2 conv.1.1))),
                 Return tt).
Proof.
  intros conv Hraw Hall.
  assert (Hne : conv.1.1 <> []).
  { unfold conv. rewrite convert_all_paths.
    destruct (select_mzXML listing); [done|discriminate]. }
  destruct (read_mzCSV_files_store conv.2 conv.1.1 h Hne Hall)
    as (r & h' & Hread & Hstore & _).
  assert (Hinit : exists self,
             init parse_mzXML kw listing fs h = (Return self, conv.2, h')
             /\ dfs self = r /\ tolerance self = kw_mz_tolerance kw
             /\ zoom_window self = kw_zoom_window kw).
  { unfold init. fold conv. destruct conv as [[csvs submitted] fs'].
    simpl in *. rewrite Hread. eexists. split; [reflexivity|]. done. }
  destruct Hinit as (self & Hinit & Hdfs & Htol & Hzoom).
  exists self, h'. split; [exact Hinit|]. split; [exact Htol|].
  split; [exact Hzoom|].
  intros F fl Hfl. rewrite <- Hdfs in Hstore.
  destruct (event_loop_store self (records_of_files conv.2 conv.1.1)
              (length (F :: fl)) sched (F :: fl) [header] h' Hstore eq_refl)
    as (order & h'' & Hloop & Hp & _).
  exists order. split; [exact Hp|].
  unfold main. rewrite Hinit. unfold run. rewrite Hfl, Hloop. reflexivity.
Qed.

End RunProperties.

(** ** Chunks *)

Lemma chunks_join {A} (k : nat) (m : nat) :
  forall l : list A,
    length l <= m * k ->
    mjoin ((fun j => take k (drop (j * k) l)) <$> seq 0 m) = l.
Proof.
  induction m as [|m IH]; intros l Hlen.
  - simpl in *. symmetry. apply nil_length_inv. lia.
  - rewrite <- cons_seq, fmap_cons, <- fmap_S_seq, <- list_fmap_compose.
    simpl. rewrite drop_0.
    transitivity (take k l ++ drop k l); [|apply take_drop]. f_equal.
    rewrite <- (IH (drop k l)) by (rewrite length_drop; lia).
    f_equal. apply list_fmap_ext. intros i j _. simpl.
    by rewrite drop_drop.
Qed.

Lemma chunk_count_covers (n k : nat) :
  0 < k -> n <= Nat.div (n + k - 1) k * k.
Proof.
  intros Hk. pose proof (Nat.div_mod_eq (n + k - 1) k) as Hdm.
  pose proof (Nat.mod_upper_bound (n + k - 1) k) as Hmod. nia.
Qed.

Lemma chunk_start_in_range (n k j : nat) :
  0 < k -> j < Nat.div (n + k - 1) k -> j * k < n.
Proof.
  intros Hk Hj. pose proof (Nat.div_mod_eq (n + k - 1) k) as Hdm. nia.
Qed.

(** X16. Chunks: for a positive chunk size [chunk] cuts the rows into
    consecutive pieces that put together give the rows again; there are
    as many pieces as the size goes into the length, rounded up; no piece
    is empty or longer than the size, and every piece but the last has
    exactly the size.  Size 0 ends with [ValueError] (the step of [range]),
    and a negative size gives no piece at all, whatever the rows. *)
Theorem X16_chunk_cuts_and_joins {A} (rws : list A) (chunk_size : Z) :
  ((0 < chunk_size)%Z ->
   exists cs,
     chunk rws chunk_size = Return cs
     /\ mjoin cs = rws
     /\ length cs = Nat.div (length rws + Z.to_nat chunk_size - 1) (Z.to_nat chunk_size)
     /\ (forall i c, cs !! i = Some c ->
           0 < length c <= Z.to_nat chunk_size
           /\ (S i < length cs -> length c = Z.to_nat chunk_size)))
  /\ (chunk_size = 0%Z -> chunk rws chunk_size = Raise ValueError)
  /\ ((chunk_size < 0)%Z -> chunk rws chunk_size = Return []).
Proof.
  split; [|split].
  - intros Hpos. unfold chunk, py_range0.
    destruct (Z.eqb_spec chunk_size 0) as [->|_]; [lia|].
    destruct (Z.ltb_spec chunk_size 0) as [Hneg|_]; [lia|].
    set (k := Z.to_nat chunk_size). assert (Hk : 0 < k) by (unfold k; lia).
    set (m := Nat.div (length rws + k - 1) k).
    simpl. rewrite <- list_fmap_compose. eexists. split; [reflexivity|].
    split; [|split].
    + apply chunks_join, chunk_count_covers, Hk.
    + by rewrite length_fmap, length_seq.
    + intros i c Hc. rewrite length_fmap, length_seq.
      apply list_lookup_fmap_Some in Hc as (j & -> & Hj).
      apply lookup_seq in Hj as [-> Hi]. simpl.
      rewrite length_take, length_drop.
      pose proof (chunk_start_in_range (length rws) k i Hk Hi) as Hstart.
      split; [lia|]. intros Hnext.
      pose proof (chunk_start_in_range (length rws) k (S i) Hk Hnext). lia.
  - intros ->. reflexivity.
  - intros Hneg. unfold chunk, py_range0.
    destruct (Z.eqb_spec chunk_size 0) as [->|_]; [lia|].
    destruct (Z.ltb_spec chunk_size 0) as [_|Hge]; [reflexivity|lia].
Qed.

(** ** Every order of the features has a schedule *)

Lemma event_loop_step (self : EICgen) (sched : list nat) (n : nat)
    (pending : list Feature) (out : list (list cell)) (h : heap) (i : nat)
    (F : Feature) :
  hd 0 sched `mod` length pending = i ->
  pending !! i = Some F ->
  event_loop self sched (S n) pending out h
  = match get_feature_rows self F h with
    | (Return rws, h') =>
        event_loop self (tl sched) n (delete i pending) (out ++ rws) h'
    | (Raise _, h') => event_loop self (tl sched) n (delete i pending) out h'
    end.
Proof. intros <- HF. simpl. by rewrite HF. Qed.

Lemma event_loop_follows (self : EICgen) (recs : list ScanRecord) :
  forall (order pending : list Feature) (out : list (list cell)) (h : heap),
    h !! dfs self = Some (store_of recs) ->
    order ≡ₚ pending ->
    exists sched h',
      event_loop self sched (length pending) pending out h
      = (out ++ (order ≫= feature_block self recs), h')
      /\ h ⊆ h'.
Proof.
  induction order as [|F order IH]; intros pending out h Hs Hp.
  - apply Permutation_nil_l in Hp. subst pending. exists [], h.
    split; [|done]. csimpl. by rewrite app_nil_r.
  - assert (HF : F ∈ pending) by (rewrite <- Hp; by left).
    apply list_elem_of_lookup in HF as [i Hi].
    pose proof (lookup_lt_Some _ _ _ Hi) as Hlt.
    destruct (get_feature_rows_store self F recs h Hs) as (h1 & Hrun & Hsub).
    destruct (IH (delete i pending) (out ++ feature_block self recs F) h1)
      as (sched & h' & Hloop & Hsub').
    { eapply lookup_weaken; eauto. }
    { apply (Permutation_cons_inv (a := F)). rewrite Hp.
      by apply delete_Permutation. }
    exists (i :: sched), h'. split; [|by etrans].
    replace (length pending) with (S (length (delete i pending)))
      by (rewrite length_delete by eauto; lia).
    rewrite (event_loop_step self (i :: sched) _ pending out h i F);
      [|simpl; apply Nat.mod_small; lia|exact Hi].
    rewrite Hrun. cbv beta iota. change (tl (i :: sched)) with sched.
    rewrite Hloop, bind_cons, app_assoc. reflexivity.
Qed.


Section OrderProperties.

Variable py_float : string -> option float.
Variable parse_mzXML : string -> filesystem -> result unit * filesystem.

(** X17. No order of the blocks is excluded: for every order of the
    features there is a schedule of the tasks under which the output is the
    header line followed by the blocks of the features in that order. *)
Theorem X17_every_block_order_has_a_schedule (self : EICgen)
    (fs : filesystem) (h : heap) (recs : list ScanRecord)
    (fl order : list Feature) :
  h !! dfs self = Some (store_of recs) ->
  features py_float self fs = Return fl ->
  order ≡ₚ fl ->
  exists sched,
    (run py_float self sched fs h).1.1
    = header :: (order ≫= feature_block self recs).
Proof.
  intros Hs Hfl Hp.
  destruct (event_loop_follows self recs order fl [header] h Hs Hp)
    as (sched & h' & Hloop & _).
  exists sched. unfold run. rewrite Hfl.
  destruct fl as [|F fl].
  - apply Permutation_nil_r in Hp. subst order. reflexivity.
  - by rewrite Hloop.
Qed.


End OrderProperties.

(** X19. The zoom window tags, it does not filter: two extractions on the
    same store with the same tolerance, for features of the same id and
    m/z, return rows that agree in everything but the flag, whatever the
    retention times of the features and the zoom windows. *)
Theorem X19_zoom_window_only_tags (self self' : EICgen) (F F' : Feature)
    (recs : list ScanRecord) (h h0 : heap) :
  h !! dfs self = Some (store_of recs) ->
  h0 !! dfs self' = Some (store_of recs) ->
  tolerance self = tolerance self' ->
  mz F = mz F' ->
  feature_id F = feature_id F' ->
  exists rws rws' h' h0',
    get_feature_rows self F h = (Return rws, h')
    /\ get_feature_rows self' F' h0 = (Return rws', h0')
    /\ take 5 <$> rws = take 5 <$> rws'.
Proof.
  intros Hs Hs' Htol Hmz Hid.
  destruct (get_feature_rows_store self F recs h Hs) as (h' & Hrun & _).
  destruct (get_feature_rows_store self' F' recs h0 Hs') as (h0' & Hrun' & _).
  eexists _, _, h', h0'. split; [exact Hrun|]. split; [exact Hrun'|].
  unfold feature_block. rewrite <- !list_fmap_compose.
  replace (List.filter (in_window self' F') recs)
    with (List.filter (in_window self F) recs).
  - apply list_fmap_ext. intros i r _. simpl. by rewrite Hid.
  - apply filter_ext. intros r. unfold in_window. by rewrite Htol, Hmz.
Qed.

(** ** The further properties on the sample inputs *)

Lemma X7_file_column_is_the_basename_witness :
  ~ In "/"%char (list_ascii_of_string "a.csv")
  /\ tables sample_fs !! ("/data" +:+ "/" +:+ "a.csv") = Some sample_table
  /\ read_csv sample_fs "/data/a.csv" = Return (store_of sample_records).
Proof.
  assert (Hname : ~ In "/"%char (list_ascii_of_string "a.csv")).
  { simpl. intros H. repeat (destruct H as [H|H]; [discriminate|]). exact H. }
  split; [exact Hname|]. split; [reflexivity|].
  exact (X7_file_column_is_the_basename sample_fs "/data" "a.csv" sample_table
           Hname eq_refl).
Defined.


Lemma X9_header_line_is_skipped_witness :
  texts sample_fs !! path_join "/data" "t.csv"
  = Some [ ["id"; "mz"; "rt"]; ["f1"; "100"; "50"]; ["f2"; "200"; "60"];
           ["f3"; "100"; "120"] ]
  /\ texts other_header_fs !! path_join "/data" "t.csv"
     = Some [ ["1"; "2"; "3"]; ["f1"; "100"; "50"]; ["f2"; "200"; "60"];
              ["f3"; "100"; "120"] ]
  /\ features float_of_digits (sample_self "t.csv") sample_fs
     = features float_of_digits (sample_self "t.csv") other_header_fs.
Proof.
  split; [reflexivity|]. split; [reflexivity|].
  apply (X9_header_line_is_skipped float_of_digits (sample_self "t.csv")
           sample_fs other_header_fs ["id"; "mz"; "rt"] ["1"; "2"; "3"]
           [ ["f1"; "100"; "50"]; ["f2"; "200"; "60"]; ["f3"; "100"; "120"] ]);
    reflexivity.
Defined.

Lemma X10_target_file_missing_or_empty_witness :
  texts sample_fs !! path_join "/data" "missing.csv" = None
  /\ run float_of_digits (sample_self "missing.csv") [] sample_fs sample_heap
     = ([header], Raise FileNotFoundError, sample_heap).
Proof.
  split; [reflexivity|].
  apply (X10_target_file_missing_or_empty float_of_digits
           (sample_self "missing.csv") [] sample_fs sample_heap).
  reflexivity.
Defined.

Lemma X11_nan_never_matches_witness :
  nan_heap !! dfs (sample_self "t.csv") = Some (store_of [record_nan; record_hit])
  /\ is_nan (rec_mz record_nan) = true
  /\ exists rws h',
       get_feature_rows (sample_self "t.csv") sample_feature nan_heap
       = (Return rws, h')
       /\ emitted_row (sample_self "t.csv") sample_feature record_nan ∉ rws.
Proof.
  split; [reflexivity|]. split; [reflexivity|].
  destruct (X11_nan_never_matches (sample_self "t.csv") sample_feature
              [record_nan; record_hit] nan_heap eq_refl)
    as (rws & h' & Hrun & Hrec & _).
  exists rws, h'. split; [exact Hrun|]. apply Hrec; [by left|reflexivity].
Defined.

Example nan_feature_has_no_row :
  (get_feature_rows (sample_self "t.csv") feature_nan nan_heap).1 = Return [].
Proof. vm_compute. reflexivity. Qed.

Lemma X12_failed_extractions_are_silent_witness :
  broken_heap !! dfs (sample_self "t.csv")
  = Some {| columns := ["rt"; "intensity"; "File"]; rows := [] |}
  /\ ("mz" ∉ ["rt"; "intensity"; "File"])
  /\ run float_of_digits (sample_self "t.csv") [1] sample_fs broken_heap
     = ([header], Return tt, broken_heap).
Proof.
  assert (Hmz : "mz" ∉ ["rt"; "intensity"; "File"]).
  { intros H. repeat (apply elem_of_cons in H as [H|H]; [discriminate|]).
    by apply elem_of_nil in H. }
  split; [reflexivity|]. split; [exact Hmz|].
  apply (X12_failed_extractions_are_silent float_of_digits (sample_self "t.csv")
           [1] sample_fs broken_heap
           {| columns := ["rt"; "intensity"; "File"]; rows := [] |}
           sample_feature
           [unmatched_feature; {| mz := 100; RT := 120; feature_id := "f3" |}]
           eq_refl Hmz eq_refl).
Defined.

Lemma X13_no_raw_file_no_store_witness :
  select_mzXML ["/data/a.csv"; "/data/t.csv"] = []
  /\ main float_of_digits failing_converter sample_kwargs
       ["/data/a.csv"; "/data/t.csv"] sample_fs [] ∅
     = (None, Raise ValueError).
Proof.
  split; [reflexivity|].
  apply (X13_no_raw_file_no_store float_of_digits failing_converter sample_kwargs
           ["/data/a.csv"; "/data/t.csv"] sample_fs [] ∅).
  reflexivity.
Defined.

Lemma X14_missing_table_no_output_witness :
  "/data/b.mzXML" ∈ select_mzXML raw_listing
  /\ main float_of_digits failing_converter sample_kwargs raw_listing sample_fs
       [] ∅
     = (None, Raise FileNotFoundError).
Proof.
  assert (Hin : "/data/b.mzXML" ∈ select_mzXML raw_listing) by (by left).
  split; [exact Hin|].
  apply (X14_missing_table_no_output float_of_digits failing_converter
           sample_kwargs raw_listing sample_fs [] ∅ "/data/b.mzXML" Hin).
  reflexivity.
Defined.

Lemma X15_script_end_to_end_witness :
  select_mzXML raw_listing <> []
  /\ exists self h',
       init sample_converter sample_kwargs raw_listing sample_fs ∅
       = (Return self,
          (convert_all_mzXML_to_CSV sample_converter raw_listing
             (select_mzXML raw_listing) sample_fs).2, h')
       /\ tolerance self = 0.5%float
       /\ zoom_window self = 30%float.
Proof.
  assert (Hraw : select_mzXML raw_listing <> []) by discriminate.
  split; [exact Hraw|].
  destruct (X15_script_end_to_end float_of_digits sample_converter
              sample_kwargs raw_listing sample_fs [] ∅ Hraw)
    as (self & h' & Hinit & Htol & Hzoom & _).
  - intros p Hp. rewrite convert_all_paths in Hp.
    apply list_elem_of_singleton in Hp as ->. by eexists.
  - exists self, h'. done.
Defined.

Example sample_script_output :
  main float_of_digits sample_converter sample_kwargs raw_listing sample_fs
    [] ∅
  = (Some [ header;
            [CStr "f1"; CFloat 50; CFloat 7; CFloat 100; CStr "b.csv"; CStr "TRUE"];
            [CStr "f1"; CFloat 80; CFloat 9; CFloat 100.25; CStr "b.csv"; CStr "FALSE"];
            [CStr "f3"; CFloat 50; CFloat 7; CFloat 100; CStr "b.csv"; CStr "FALSE"];
            [CStr "f3"; CFloat 80; CFloat 9; CFloat 100.25; CStr "b.csv"; CStr "FALSE"] ],
     Return tt).
Proof. vm_compute. reflexivity. Qed.

Lemma X16_chunk_cuts_and_joins_witness :
  (0 < 2)%Z
  /\ exists cs,
       chunk [1; 2; 3; 4; 5] 2 = Return cs
       /\ mjoin cs = [1; 2; 3; 4; 5]
       /\ length cs = 3.
Proof.
  split; [lia|].
  destruct (proj1 (X16_chunk_cuts_and_joins [1; 2; 3; 4; 5] 2))
    as (cs & Hcs & Hjoin & Hlen & _); [lia|].
  exists cs. split; [exact Hcs|]. split; [exact Hjoin|]. exact Hlen.
Defined.

Example sample_chunks :
  chunk [1; 2; 3; 4; 5] 2 = Return [ [1; 2]; [3; 4]; [5] ]
  /\ chunk [1; 2; 3; 4; 5] 0 = Raise ValueError
  /\ chunk [1; 2; 3; 4; 5] (-2) = Return []
  /\ chunk (@nil nat) 2 = Return [].
Proof. repeat split. Qed.

Lemma X17_every_block_order_has_a_schedule_witness :
  sample_heap !! dfs (sample_self "t.csv") = Some (store_of sample_records)
  /\ [ unmatched_feature; sample_feature;
       {| mz := 100; RT := 120; feature_id := "f3" |} ]
     ≡ₚ [ sample_feature; unmatched_feature;
          {| mz := 100; RT := 120; feature_id := "f3" |} ]
  /\ exists sched,
       (run float_of_digits (sample_self "t.csv") sched sample_fs sample_heap).1.1
       = header :: ([ unmatched_feature; sample_feature;
                      {| mz := 100; RT := 120; feature_id := "f3" |} ]
                    ≫= feature_block (sample_self "t.csv") sample_records).
Proof.
  split; [reflexivity|]. split; [apply perm_swap|].
  apply (X17_every_block_order_has_a_schedule float_of_digits
           (sample_self "t.csv") sample_fs sample_heap sample_records
           [ sample_feature; unmatched_feature;
             {| mz := 100; RT := 120; feature_id := "f3" |} ]);
    [reflexivity|reflexivity|apply perm_swap].
Defined.

Lemma X19_zoom_window_only_tags_witness :
  sample_heap !! dfs (sample_self "t.csv") = Some (store_of sample_records)
  /\ sample_heap !! dfs narrow_self = Some (store_of sample_records)
  /\ exists rws rws' h' h0',
       get_feature_rows (sample_self "t.csv") sample_feature sample_heap
       = (Return rws, h')
       /\ get_feature_rows narrow_self late_feature sample_heap
          = (Return rws', h0')
       /\ take 5 <$> rws = take 5 <$> rws'.
Proof.
  split; [reflexivity|]. split; [reflexivity|].
  apply (X19_zoom_window_only_tags (sample_self "t.csv") narrow_self
           sample_feature late_feature sample_records sample_heap sample_heap);
    reflexivity.
Defined.
